(** * Shallow embedding of the Kubernetes query assistants of candidate-finder

    Two implementations of the query pipeline live in the repository:
    - [LangGraph]: [backend/app/features/k8s/k8s_langgraph_assistant.py]
      (class [K8sLangGraphAssistant], the one wired to the HTTP router), which
      executes [kubectl] as a subprocess;
    - [K8sAssistant]: [backend/app/features/k8s/k8s_assistant.py]
      (class [K8sAssistant]), which calls the typed Kubernetes API client.

    Query text is modelled as ASCII strings: Python's [str.lower], [str.split],
    [str.strip] and the regex classes [\s] and [\w] are written out for the
    ASCII range.  External collaborators (the LLM completion, the subprocess
    runner, the Kubernetes API client, the LangGraph engine) are parameters:
    every theorem quantifies over their behaviour.  Python exceptions are the
    [Exc] case of [pyres]. *)

From Stdlib Require Import String Ascii List Bool Arith Lia ZArith.
Import ListNotations.
Open Scope list_scope.
Open Scope string_scope.

(** ** Python string operations on ASCII text *)

Definition lower_ascii (c : ascii) : ascii :=
  let n := nat_of_ascii c in
  if ((65 <=? n) && (n <=? 90))%nat then ascii_of_nat (n + 32)%nat else c.

(** [str.lower] *)
Fixpoint lower (s : string) : string :=
  match s with
  | EmptyString => EmptyString
  | String c s' => String (lower_ascii c) (lower s')
  end.

(** [s.startswith(p)] is [startswith p s]. *)
Fixpoint startswith (p s : string) : bool :=
  match p, s with
  | EmptyString, _ => true
  | String a p', String b s' => Ascii.eqb a b && startswith p' s'
  | _, _ => false
  end.

(** Python's [p in s] on strings. *)
Fixpoint contains (p s : string) : bool :=
  startswith p s ||
  match s with
  | EmptyString => false
  | String _ s' => contains p s'
  end.

(** [s.endswith(p)] *)
Definition endswith (p s : string) : bool :=
  startswith (string_of_list_ascii (rev (list_ascii_of_string p)))
             (string_of_list_ascii (rev (list_ascii_of_string s))).

(** [str.isspace] restricted to ASCII; also the class [\s] of [re]. *)
Definition is_space (c : ascii) : bool :=
  let n := nat_of_ascii c in
  (((9 <=? n) && (n <=? 13)) || ((28 <=? n) && (n <=? 32)))%nat.

(** The class [\w] of [re], restricted to ASCII. *)
Definition is_word (c : ascii) : bool :=
  let n := nat_of_ascii c in
  (((48 <=? n) && (n <=? 57)) || ((65 <=? n) && (n <=? 90)) ||
   ((97 <=? n) && (n <=? 122)) || (n =? 95))%nat.

Fixpoint drop_spaces (l : list ascii) : list ascii :=
  match l with
  | c :: l' => if is_space c then drop_spaces l' else l
  | [] => []
  end.

(** [str.strip()] *)
Definition strip (s : string) : string :=
  string_of_list_ascii
    (rev (drop_spaces (rev (drop_spaces (list_ascii_of_string s))))).

(** [str.split()] with no argument: runs of whitespace separate words. *)
Fixpoint split_ws_aux (l : list ascii) (cur : list ascii) : list string :=
  match l with
  | [] => match cur with [] => [] | _ => [string_of_list_ascii (rev cur)] end
  | c :: l' =>
      if is_space c then
        match cur with
        | [] => split_ws_aux l' []
        | _ => string_of_list_ascii (rev cur) :: split_ws_aux l' []
        end
      else split_ws_aux l' (c :: cur)
  end.

Definition split_ws (s : string) : list string :=
  split_ws_aux (list_ascii_of_string s) [].

(** [s.split(sep)] for a one-character separator: empty parts are kept. *)
Fixpoint split_on_aux (sep : ascii) (l : list ascii) (cur : list ascii)
  : list string :=
  match l with
  | [] => [string_of_list_ascii (rev cur)]
  | c :: l' =>
      if Ascii.eqb c sep
      then string_of_list_ascii (rev cur) :: split_on_aux sep l' []
      else split_on_aux sep l' (c :: cur)
  end.

Definition split_on (sep : ascii) (s : string) : list string :=
  split_on_aux sep (list_ascii_of_string s) [].

(** [s.count(c)] for a one-character [c]. *)
Fixpoint count_char (c : ascii) (s : string) : nat :=
  match s with
  | EmptyString => 0%nat
  | String d s' => ((if Ascii.eqb c d then 1 else 0) + count_char c s')%nat
  end.

(** [x in l] for a list of strings. *)
Definition mem (x : string) (l : list string) : bool :=
  existsb (String.eqb x) l.

(** [sep.join(l)] *)
Fixpoint join (sep : string) (l : list string) : string :=
  match l with
  | [] => ""
  | [x] => x
  | x :: l' => x ++ sep ++ join sep l'
  end.

(** ** Python values and exceptions *)

Inductive exn_kind := ValueError | TypeError | AttributeError | KeyError
  | ApiException | OtherException.

(** A computation that returns a value or raises. *)
Inductive pyres (A : Type) : Type :=
| Ok (a : A)
| Exc (k : exn_kind) (msg : string).
Arguments Ok {A} a.
Arguments Exc {A} k msg.

Definition bind {A B} (r : pyres A) (f : A -> pyres B) : pyres B :=
  match r with Ok a => f a | Exc k m => Exc k m end.

Notation "x <- r ;; k" := (bind r (fun x => k))
  (at level 61, r at next level, right associativity).

(** JSON values as the pipeline sees them after [json.loads]: null, booleans,
    strings and lists of strings. *)
Inductive jval := JNull | JBool (b : bool) | JStr (s : string)
  | JList (l : list string).

(** Python truthiness of such a value. *)
Definition truthy (v : jval) : bool :=
  match v with
  | JNull => false
  | JBool b => b
  | JStr s => negb (String.eqb s "")
  | JList l => negb (match l with [] => true | _ => false end)
  end.

Definition jeq_str (v : jval) (s : string) : bool :=
  match v with JStr t => String.eqb t s | _ => false end.

(** [v in l] for a list [l] of strings: only a string can be a member. *)
Definition jin (v : jval) (l : list string) : bool :=
  match v with JStr s => mem s l | _ => false end.

(** [str(v)] *)
Definition py_str (v : jval) : string :=
  match v with
  | JNull => "None"
  | JBool true => "True"
  | JBool false => "False"
  | JStr s => s
  | JList l => "[" ++ join ", " (map (fun x => "'" ++ x ++ "'") l) ++ "]"
  end.

(** A dict with string keys, in insertion order. *)
Definition jdict := list (string * jval).

Fixpoint jget (k : string) (d : jdict) : option jval :=
  match d with
  | [] => None
  | (k', v) :: d' => if String.eqb k k' then Some v else jget k d'
  end.

(** [d.get(k, dflt)] *)
Definition jget_or (k : string) (dflt : jval) (d : jdict) : jval :=
  match jget k d with Some v => v | None => dflt end.

(** [d[k] = v]: replace in place, or append a new key. *)
Fixpoint jset (k : string) (v : jval) (d : jdict) : jdict :=
  match d with
  | [] => [(k, v)]
  | (k', v') :: d' =>
      if String.eqb k k' then (k', v) :: d' else (k', v') :: jset k v d'
  end.

(** [d.setdefault(k, v)] *)
Definition setdefault (k : string) (v : jval) (d : jdict) : jdict :=
  match jget k d with Some _ => d | None => (d ++ [(k, v)])%list end.

(** [find] on a list of pairs with a string key: [dict.get(k, dflt)] for a
    literal dict. *)
Definition map_get (m : list (string * string)) (k dflt : string) : string :=
  match find (fun kv => String.eqb (fst kv) k) m with
  | Some kv => snd kv
  | None => dflt
  end.

(** Converting a list of Python values to subprocess arguments: every element
    must be a [str], otherwise [subprocess.run] and [' '.join] raise
    [TypeError]. *)
Fixpoint as_strings (l : list jval) : option (list string) :=
  match l with
  | [] => Some []
  | JStr s :: l' =>
      match as_strings l' with Some r => Some (s :: r) | None => None end
  | _ :: _ => None
  end.

(** The response dictionary returned by [process_query]; [None] in a field
    means the key is absent from the dictionary. *)
Record response (I E : Type) := mkResponse {
  r_query : string;
  r_parsed_intent : option (option I);
  r_raw_response : option string;
  r_enhanced_response : option string;
  r_error : option E;
  r_suggestion : option (option string);
  r_success : bool
}.
Arguments mkResponse {I E}.
Arguments r_query {I E}.
Arguments r_parsed_intent {I E}.
Arguments r_raw_response {I E}.
Arguments r_enhanced_response {I E}.
Arguments r_error {I E}.
Arguments r_suggestion {I E}.
Arguments r_success {I E}.

(** ** [k8s_langgraph_assistant.py]: class [K8sLangGraphAssistant] *)
Module LangGraph.

Definition supported_resources : list string :=
  ["pods"; "services"; "deployments"; "configmaps"; "ingress"; "nodes";
   "namespaces"; "persistentvolumes"; "persistentvolumeclaims"].
Definition supported_actions : list string := ["list"; "get"; "describe"; "logs"].
Definition banned_actions : list string :=
  ["delete"; "edit"; "patch"; "apply"; "create"].
Definition restricted_resources : list string :=
  ["secrets"; "roles"; "clusterroles"].

(** [@dataclass K8sIntent]; the dataclass does not check the field types, so
    the fields hold whatever the parsed JSON held. *)
Record K8sIntent := mkIntent {
  resource_type : jval;
  action : jval;
  resource_name : jval;
  namespace : jval;
  additional_flags : jval
}.

(** [__post_init__]: a [None] flag list becomes [[]]. *)
Definition post_init (i : K8sIntent) : K8sIntent :=
  match additional_flags i with
  | JNull => mkIntent (resource_type i) (action i) (resource_name i)
               (namespace i) (JList [])
  | _ => i
  end.

Definition intent_fields : list string :=
  ["resource_type"; "action"; "resource_name"; "namespace"; "additional_flags"].

(** [K8sIntent( **d)] *)
Definition K8sIntent_of_dict (d : jdict) : pyres K8sIntent :=
  if forallb (fun kv => mem (fst kv) intent_fields) d then
    match jget "resource_type" d, jget "action" d with
    | Some rt, Some a =>
        Ok (post_init (mkIntent rt a (jget_or "resource_name" JNull d)
                         (jget_or "namespace" JNull d)
                         (jget_or "additional_flags" JNull d)))
    | _, _ => Exc TypeError "K8sIntent.__init__() missing a required argument"
    end
  else Exc TypeError "K8sIntent.__init__() got an unexpected keyword argument".

Definition set_resource_name (n : jval) (i : K8sIntent) : K8sIntent :=
  mkIntent (resource_type i) (action i) n (namespace i) (additional_flags i).

(** [class K8sState(TypedDict)]; the [messages] list is never read and is
    left out. *)
Record K8sState := mkState {
  query : string;
  intent : option K8sIntent;
  security_check_passed : bool;
  kubectl_output : string;
  enhanced_response : string;
  error : option string;
  suggestion : option string
}.

(** Truthiness of [state["error"]]. *)
Definition err_truthy (e : option string) : bool :=
  match e with Some s => negb (String.eqb s "") | None => false end.

Definition set_error (e sug : option string) (st : K8sState) : K8sState :=
  mkState (query st) (intent st) (security_check_passed st)
    (kubectl_output st) (enhanced_response st) e sug.
Definition set_intent (i : option K8sIntent) (st : K8sState) : K8sState :=
  mkState (query st) i (security_check_passed st) (kubectl_output st)
    (enhanced_response st) (error st) (suggestion st).
Definition set_passed (st : K8sState) : K8sState :=
  mkState (query st) (intent st) true (kubectl_output st)
    (enhanced_response st) (error st) (suggestion st).
Definition set_output (o : string) (st : K8sState) : K8sState :=
  mkState (query st) (intent st) (security_check_passed st) o
    (enhanced_response st) (error st) (suggestion st).
Definition set_enhanced (e : string) (st : K8sState) : K8sState :=
  mkState (query st) (intent st) (security_check_passed st)
    (kubectl_output st) e (error st) (suggestion st).

(** The initial state built by [process_query]. *)
Definition initial_state (q : string) : K8sState :=
  mkState q None false "" "" None None.

(** The collaborators: [_parse_with_llm] (the completion call followed by the
    JSON extraction, which either raises or yields a dict), the completion
    call of the enhancement node, and [subprocess.run(cmd, timeout=t)]. *)
Inductive proc_outcome :=
| Completed (returncode : Z) (stdout stderr : string)
| TimeoutExpired
| RunRaised (k : exn_kind) (msg : string).

Record Env := mkEnv {
  parse_with_llm : string -> pyres jdict;
  get_text_completion : string -> pyres string;
  subprocess_run : list string -> Z -> proc_outcome
}.

(** A subprocess call: the argument vector and the timeout in seconds. *)
Definition call := (list string * Z)%type.

(** *** Security check node *)

Definition security_warning (b : string) : string :=
  "🚫 Security Warning: '" ++ b ++ "' operations are not allowed for safety reasons.".
Definition access_denied (r : string) : string :=
  "🔒 Access Denied: '" ++ r ++ "' resources are restricted for security reasons.".

Definition security_check_node (st : K8sState) : K8sState :=
  let query_lower := lower (query st) in
  match find (fun b => contains b query_lower) banned_actions with
  | Some b =>
      set_error (Some (security_warning b))
        (Some "You can only perform read-only operations like 'list', 'get', 'describe', and 'logs'.") st
  | None =>
      match find (fun r => contains r query_lower) restricted_resources with
      | Some r =>
          set_error (Some (access_denied r))
            (Some "Try querying other resources like pods, services, deployments, configmaps, or ingress instead.") st
      | None => set_passed st
      end
  end.

Inductive route := RContinue | RError.

(** [_security_check_router] and [_parse_intent_router] *)
Definition router (st : K8sState) : route :=
  if err_truthy (error st) then RError else RContinue.

(** *** Intent parsing node *)

Definition resource_map : list (string * string) :=
  [("pod", "pods"); ("svc", "services"); ("deploy", "deployments");
   ("deployment", "deployments"); ("cm", "configmaps");
   ("pv", "persistentvolumes"); ("pvc", "persistentvolumeclaims")].

(** [_validate_intent] *)
Definition validate_intent (intent_data : jdict) : pyres jdict :=
  let d := setdefault "additional_flags" (JList [])
             (setdefault "namespace" JNull
               (setdefault "resource_name" JNull
                 (setdefault "action" (JStr "list")
                   (setdefault "resource_type" (JStr "pods") intent_data)))) in
  let rt := jget_or "resource_type" JNull d in
  let act := jget_or "action" JNull d in
  if jin rt restricted_resources then
    Exc ValueError ("Access denied to " ++ py_str rt)
  else if jin act banned_actions then
    Exc ValueError ("Action " ++ py_str act ++ " is not allowed")
  else if jin rt supported_resources then Ok d
  else
    match rt with
    | JStr s => Ok (jset "resource_type" (JStr (map_get resource_map s "pods")) d)
    | JList _ => Exc TypeError "unhashable type: 'list'"
    | _ => Ok (jset "resource_type" (JStr "pods") d)
    end.

(** [_fallback_parse] *)
Definition fallback_parse (q : string) : K8sIntent :=
  let query_lower := lower q in
  let action :=
    if contains "logs" query_lower then "logs"
    else if contains "describe" query_lower then "describe"
    else if contains "get" query_lower || contains "show" query_lower then "get"
    else "list" in
  let resource_type :=
    if contains "service" query_lower || contains "svc" query_lower then "services"
    else if contains "deployment" query_lower || contains "deploy" query_lower
    then "deployments"
    else if contains "configmap" query_lower || contains "cm" query_lower
    then "configmaps"
    else if contains "pv" query_lower && negb (contains "pvc" query_lower)
    then "persistentvolumes"
    else if contains "pvc" query_lower then "persistentvolumeclaims"
    else "pods" in
  mkIntent (JStr resource_type) (JStr action) JNull JNull (JList []).

(** [_parse_intent_node]: any exception of the LLM path, of the validation or
    of the dataclass construction falls back to [_fallback_parse]; building a
    [K8sIntent] from the fallback dict cannot raise, so the second handler is
    never reached. *)
Definition parse_intent_node (env : Env) (st : K8sState) : K8sState :=
  match (d <- parse_with_llm env (query st) ;;
         v <- validate_intent d ;;
         K8sIntent_of_dict v) with
  | Ok i => set_intent (Some i) st
  | Exc _ _ => set_intent (Some (fallback_parse (query st))) st
  end.

(** *** Resource resolution node *)

(** [len(x)] on the values that have one. *)
Definition py_len (v : jval) : pyres nat :=
  match v with
  | JStr s => Ok (String.length s)
  | JList l => Ok (length l)
  | JNull => Exc TypeError "object of type 'NoneType' has no len()"
  | JBool _ => Exc TypeError "object of type 'bool' has no len()"
  end.

(** [r.split('/')[-1]] *)
Definition last_segment (r : string) : string :=
  last (split_on "/"%char r) "".

(** The names printed by [kubectl get <type> -o name]. *)
Definition resource_names_of (stdout : string) : list string :=
  map last_segment
    (filter (fun r => negb (String.eqb r "")) (split_on "010"%char (strip stdout))).

(** [_resolve_resource_name]: the resolved name, or the exception raised by
    the guard (outside its [try]), with the subprocess calls made. *)
Definition resolve_resource_name (env : Env) (i : K8sIntent)
  : pyres jval * list call :=
  let nm := resource_name i in
  if negb (truthy nm) then (Ok nm, []) else
  match py_len nm with
  | Exc k m => (Exc k m, [])
  | Ok n =>
    if (20 <? n)%nat then (Ok nm, []) else
    let cmd := ([JStr "kubectl"; JStr "get"; resource_type i; JStr "-o"; JStr "name"]
                ++ (if truthy (namespace i) then [JStr "-n"; namespace i] else []))%list in
    match as_strings cmd with
    | None => (Ok nm, [])
    | Some c =>
        let res :=
          match subprocess_run env c 10 with
          | Completed rc so _ =>
              if Z.eqb rc 0 then
                match nm with
                | JStr s =>
                    match find (fun r => contains (lower s) (lower r))
                                (resource_names_of so) with
                    | Some r => Ok (JStr r)
                    | None => Ok nm
                    end
                | _ => Ok nm
                end
              else Ok nm
          | _ => Ok nm
          end in
        (res, [(c, 10%Z)])
    end
  end.

(** [_resolve_resources_node] *)
Definition resolve_resources_node (env : Env) (st : K8sState)
  : K8sState * list call :=
  match intent st with
  | None => (st, [])
  | Some i =>
      if negb (truthy (resource_name i)) then (st, []) else
      let '(r, calls) := resolve_resource_name env i in
      match r with
      | Ok n => (set_intent (Some (set_resource_name n i)) st, calls)
      | Exc _ _ => (st, calls)
      end
  end.

(** *** Execution node *)

(** [_build_kubectl_command] *)
Definition build_kubectl_command (i : K8sIntent) : pyres (list jval) :=
  cmd <- (if jeq_str (action i) "logs" then
            if truthy (resource_name i)
            then Ok [JStr "kubectl"; JStr "logs"; resource_name i]
            else Exc ValueError "Resource name required for logs"
          else if jin (action i) ["list"; "get"] then
            Ok ([JStr "kubectl"; JStr "get"; resource_type i]
                ++ (if truthy (resource_name i) then [resource_name i] else []))%list
          else if jeq_str (action i) "describe" then
            Ok ([JStr "kubectl"; JStr "describe"; resource_type i]
                ++ (if truthy (resource_name i) then [resource_name i] else []))%list
          else Ok [JStr "kubectl"]) ;;
  let cmd := (cmd ++ (if truthy (namespace i) then [JStr "-n"; namespace i] else []))%list in
  match additional_flags i with
  | JList l => Ok (cmd ++ map JStr l)%list
  | JStr s =>
      Ok (cmd ++ map (fun c => JStr (String c EmptyString)) (list_ascii_of_string s))%list
  | JNull => Exc TypeError "'NoneType' object is not iterable"
  | JBool _ => Exc TypeError "'bool' object is not iterable"
  end.

Definition execution_failed (m : string) (st : K8sState) : K8sState :=
  set_error (Some ("Command execution failed: " ++ m))
    (Some "Please check your query syntax and try again.") st.

(** [_execute_kubectl_node] *)
Definition execute_kubectl_node (env : Env) (st : K8sState)
  : K8sState * list call :=
  match intent st with
  | None => (execution_failed "No intent available for kubectl execution" st, [])
  | Some i =>
    match build_kubectl_command i with
    | Exc _ m => (execution_failed m st, [])
    | Ok cmd =>
      match as_strings cmd with
      | None => (execution_failed "sequence item: expected str instance" st, [])
      | Some c =>
        let st' :=
          match subprocess_run env c 30 with
          | Completed rc so se =>
              if Z.eqb rc 0 then set_output (strip so) st
              else
                let e := strip se in
                set_error
                  (Some ("kubectl error: " ++ (if String.eqb e "" then "Unknown kubectl error" else e)))
                  (Some "Check if the resource exists and you have proper permissions.") st
          | TimeoutExpired =>
              set_error (Some "kubectl command timed out")
                (Some "The cluster may be unresponsive. Try again later.") st
          | RunRaised _ m => execution_failed m st
          end in
        (st', [(c, 30%Z)])
      end
    end
  end.

(** *** Enhancement and error nodes *)

Definition dquote : string := String "034"%char EmptyString.

Definition enhance_prompt (q out : string) : string :=
  "
Analyze this Kubernetes output and provide a helpful summary for the user.

Original Query: " ++ dquote ++ q ++ dquote ++ "
Kubectl Output: " ++ out ++ "

Provide a clear, concise analysis that:
1. Summarizes what was found
2. Highlights important information
3. Suggests next steps if appropriate
4. Explains any issues or concerns

Keep the response practical and user-friendly.
".

(** [_enhance_response_node] *)
Definition enhance_response_node (env : Env) (st : K8sState) : K8sState :=
  if String.eqb (kubectl_output st) "" || err_truthy (error st) then st else
  match get_text_completion env (enhance_prompt (query st) (kubectl_output st)) with
  | Ok s => set_enhanced (strip s) st
  | Exc _ _ => set_enhanced "Raw kubectl output provided above." st
  end.

(** [_error_handler_node] *)
Definition error_handler_node (st : K8sState) : K8sState :=
  if err_truthy (error st) then st
  else set_error (Some "An unknown error occurred")
         (Some "Please try rephrasing your query") st.

(** *** The compiled graph *)

Inductive node := SecurityCheck | ParseIntent | ResolveResources
  | ExecuteKubectl | EnhanceResponse | ErrorHandler.

(** One run of the graph: the node after which [END] is reached, the final
    state and the subprocess calls made, in order. *)
Definition workflow (env : Env) (st : K8sState) : node * K8sState * list call :=
  let s1 := security_check_node st in
  match router s1 with
  | RError => (ErrorHandler, error_handler_node s1, [])
  | RContinue =>
    let s2 := parse_intent_node env s1 in
    match router s2 with
    | RError => (ErrorHandler, error_handler_node s2, [])
    | RContinue =>
      let '(s3, c3) := resolve_resources_node env s2 in
      let '(s4, c4) := execute_kubectl_node env s3 in
      (EnhanceResponse, enhance_response_node env s4, (c3 ++ c4)%list)
    end
  end.

(** [_format_response] *)
Definition format_response (st : K8sState) : response K8sIntent string :=
  if err_truthy (error st) then
    mkResponse (query st) None None None (error st) (Some (suggestion st)) false
  else
    mkResponse (query st) (Some (intent st)) (Some (kubectl_output st))
      (Some (enhanced_response st)) None None true.

(** [process_query] for a given behaviour of [self.workflow.ainvoke]. *)
Definition process_query_with (ainvoke : K8sState -> pyres K8sState) (q : string)
  : response K8sIntent string :=
  match ainvoke (initial_state q) with
  | Ok final_state => format_response final_state
  | Exc _ m =>
      mkResponse q None None None (Some ("Internal error: " ++ m))
        (Some (Some "Please try rephrasing your query or contact support.")) false
  end.

(** [process_query] with the graph above. *)
Definition process_query (env : Env) (q : string) : response K8sIntent string :=
  process_query_with (fun st => let '(_, s, _) := workflow env st in Ok s) q.

(** *** The reply handling of [_parse_with_llm] *)

(** The longest prefix of [l] that ends in ['}'], if any. *)
Fixpoint last_close_prefix (l : list ascii) : option (list ascii) :=
  match l with
  | [] => None
  | c :: l' =>
      match last_close_prefix l' with
      | Some p => Some (c :: p)
      | None => if Ascii.eqb c "}" then Some [c] else None
      end
  end.

(** [re.search(r'\{.*\}', s, re.DOTALL)]: at the leftmost start position
    holding ['{'], the greedy [.*] backtracks to the last ['}'] after it; a
    start position without such a ['}'] fails and the search moves on. *)
Fixpoint brace_search (l : list ascii) : option (list ascii) :=
  match l with
  | [] => None
  | c :: l' =>
      if Ascii.eqb c "{" then
        match last_close_prefix l' with
        | Some p => Some (c :: p)
        | None => brace_search l'
        end
      else brace_search l'
  end.

(** The part of [_parse_with_llm] after the completion call: the matched text
    is handed to [json.loads] (a parameter here), and a reply without a match
    raises [ValueError]. *)
Definition parse_llm_reply (json_loads : string -> pyres jdict) (response : string)
  : pyres jdict :=
  match brace_search (list_ascii_of_string response) with
  | Some m => json_loads (string_of_list_ascii m)
  | None => Exc ValueError "No valid JSON found in LLM response"
  end.

End LangGraph.

(** ** [k8s_assistant.py]: class [K8sAssistant]

    The class's [_build_workflow] names [self._route_after_security] and
    [self._route_after_parsing], which the class does not define, so the graph
    is never built; its methods are modelled one by one. *)
Module K8sAssistant.

Definition supported_resources : list string :=
  ["pods"; "services"; "deployments"; "configmaps"; "ingress"; "nodes";
   "namespaces"; "persistentvolumes"; "persistentvolumeclaims"].
Definition banned_actions : list string :=
  ["delete"; "edit"; "patch"; "apply"; "create"].

(** [class K8sState(TypedDict)]; [messages] is never read and is left out. *)
Record K8sState := mkState {
  query : string;
  parsed_intent : jdict;
  security_check : jdict;
  kubectl_result : string;
  enhanced_response : string;
  error : jval
}.

Definition set_error_check (e : jval) (chk : jdict) (st : K8sState) : K8sState :=
  mkState (query st) (parsed_intent st) chk (kubectl_result st)
    (enhanced_response st) e.
Definition set_check (chk : jdict) (st : K8sState) : K8sState :=
  mkState (query st) (parsed_intent st) chk (kubectl_result st)
    (enhanced_response st) (error st).

(** *** [_security_check_node] *)

Definition restricted_patterns : list (string * list string) :=
  [("secrets", ["secret"; "secrets"]);
   ("roles", ["role"; "roles"; "rolebinding"; "rolebindings"]);
   ("clusterroles", ["clusterrole"; "clusterroles"; "clusterrolebinding";
                     "clusterrolebindings"])].

Definition security_warning (b : string) : string :=
  "ðŸš« Security Warning: '" ++ b ++ "' operations are not allowed for safety reasons.".
Definition access_denied (p : string) : string :=
  "ðŸ”’ Access Denied: '" ++ p ++ "' resources are restricted for security reasons.".

Definition security_check_node (st : K8sState) : K8sState :=
  let query_lower := lower (query st) in
  match find (fun b => contains b query_lower) banned_actions with
  | Some b =>
      set_error_check (JStr (security_warning b))
        [("blocked", JBool true); ("reason", JStr ("banned_action: " ++ b))] st
  | None =>
      (* the nested loops over the categories and their patterns *)
      match find (fun p => contains p query_lower)
                 (flat_map snd restricted_patterns) with
      | Some p =>
          set_error_check (JStr (access_denied p))
            [("blocked", JBool true); ("reason", JStr ("restricted_resource: " ++ p))] st
      | None => set_check [("blocked", JBool false)] st
      end
  end.

(** *** [_validate_intent] *)

Definition restricted_resource_types : list string :=
  ["secrets"; "secret"; "roles"; "role"; "clusterroles"; "clusterrole"].

Definition resource_map : list (string * string) :=
  [("pod", "pods"); ("svc", "services"); ("deploy", "deployments");
   ("deployment", "deployments"); ("cm", "configmaps");
   ("pv", "persistentvolumes"); ("persistentvolume", "persistentvolumes");
   ("pvc", "persistentvolumeclaims");
   ("persistentvolumeclaim", "persistentvolumeclaims")].

Definition validate_intent (intent0 : jdict) : pyres jdict :=
  let d := setdefault "additional_flags" (JList [])
             (setdefault "namespace" JNull
               (setdefault "resource_name" JNull
                 (setdefault "action" (JStr "list")
                   (setdefault "resource_type" (JStr "pods") intent0)))) in
  let rt := jget_or "resource_type" JNull d in
  let act := jget_or "action" JNull d in
  if jin rt restricted_resource_types then
    Exc ValueError (access_denied (py_str rt))
  else if jin act banned_actions then
    Exc ValueError (security_warning (py_str act))
  else if jin rt supported_resources then Ok d
  else
    match rt with
    | JStr s => Ok (jset "resource_type" (JStr (map_get resource_map s "pods")) d)
    | JList _ => Exc TypeError "unhashable type: 'list'"
    | _ => Ok (jset "resource_type" (JStr "pods") d)
    end.

(** *** [_fallback_parse] *)

Definition common_namespaces : list string :=
  ["kube-system"; "default"; "monitoring"; "ingress-nginx"; "cert-manager";
   "kube-public"].

Definition resource_patterns : list (string * list string) :=
  [("pods", ["pod"; "pods"]);
   ("services", ["service"; "services"; "svc"]);
   ("deployments", ["deployment"; "deployments"; "deploy"]);
   ("configmaps", ["configmap"; "configmaps"; "cm"]);
   ("ingress", ["ingress"; "ing"]);
   ("nodes", ["node"; "nodes"]);
   ("namespaces", ["namespace"; "namespaces"; "ns"]);
   ("persistentvolumes", ["persistentvolume"; "persistentvolumes"; "pv"]);
   ("persistentvolumeclaims", ["persistentvolumeclaim"; "persistentvolumeclaims"; "pvc"])].

Definition any_in (words : list string) (s : string) : bool :=
  existsb (fun w => contains w s) words.

(** Matching of the five namespace regexes of [_fallback_parse] at one
    position.  A greedy [\w+] followed by [\s], by [-] or by the end of the
    pattern can only succeed on the longest run of word characters, and a
    [\s+] followed by a letter only on the longest run of spaces, so each
    pattern has a single way to match at a position. *)
Fixpoint word_run (l : list ascii) : list ascii * list ascii :=
  match l with
  | c :: l' =>
      if is_word c then let '(w, r) := word_run l' in (c :: w, r) else ([], l)
  | [] => ([], [])
  end.

Fixpoint space_run (l : list ascii) : list ascii * list ascii :=
  match l with
  | c :: l' =>
      if is_space c then let '(w, r) := space_run l' in (c :: w, r) else ([], l)
  | [] => ([], [])
  end.

Fixpoint lit (p : list ascii) (l : list ascii) : option (list ascii) :=
  match p, l with
  | [], _ => Some l
  | a :: p', b :: l' => if Ascii.eqb a b then lit p' l' else None
  | _, _ => None
  end.

(** [\s+] *)
Definition spaces1 (l : list ascii) : option (list ascii) :=
  match space_run l with ([], _) => None | (_, r) => Some r end.
(** [\w+] *)
Definition words1 (l : list ascii) : option (list ascii * list ascii) :=
  match word_run l with ([], _) => None | (w, r) => Some (w, r) end.

Definition obind {A B} (o : option A) (f : A -> option B) : option B :=
  match o with Some a => f a | None => None end.

Definition L (s : string) : list ascii := list_ascii_of_string s.

(** [in\s+(\w+)\s+namespace] *)
Definition pat_in_x_namespace (l : list ascii) : option (list ascii) :=
  obind (lit (L "in") l) (fun r1 => obind (spaces1 r1) (fun r2 =>
  obind (words1 r2) (fun '(w, r3) => obind (spaces1 r3) (fun r4 =>
  obind (lit (L "namespace") r4) (fun _ => Some w))))).
(** [namespace\s+(\w+)] *)
Definition pat_namespace_x (l : list ascii) : option (list ascii) :=
  obind (lit (L "namespace") l) (fun r1 => obind (spaces1 r1) (fun r2 =>
  obind (words1 r2) (fun '(w, _) => Some w))).
(** [in\s+namespace\s+(\w+)] *)
Definition pat_in_namespace_x (l : list ascii) : option (list ascii) :=
  obind (lit (L "in") l) (fun r1 => obind (spaces1 r1) (fun r2 =>
  obind (lit (L "namespace") r2) (fun r3 => obind (spaces1 r3) (fun r4 =>
  obind (words1 r4) (fun '(w, _) => Some w))))).
(** [pods\s+in\s+(\w+)] *)
Definition pat_pods_in_x (l : list ascii) : option (list ascii) :=
  obind (lit (L "pods") l) (fun r1 => obind (spaces1 r1) (fun r2 =>
  obind (lit (L "in") r2) (fun r3 => obind (spaces1 r3) (fun r4 =>
  obind (words1 r4) (fun '(w, _) => Some w))))).
(** [in\s+(\w+-\w+)] *)
Definition pat_in_x_dash_y (l : list ascii) : option (list ascii) :=
  obind (lit (L "in") l) (fun r1 => obind (spaces1 r1) (fun r2 =>
  obind (words1 r2) (fun '(w1, r3) => obind (lit (L "-") r3) (fun r4 =>
  obind (words1 r4) (fun '(w2, _) => Some (w1 ++ "-"%char :: w2)%list))))).

(** [re.search(pattern, s).group(1)]: the leftmost position that matches. *)
Fixpoint search (pat : list ascii -> option (list ascii)) (l : list ascii)
  : option string :=
  match pat l with
  | Some g => Some (string_of_list_ascii g)
  | None => match l with [] => None | _ :: l' => search pat l' end
  end.

Definition namespace_patterns : list (list ascii -> option (list ascii)) :=
  [pat_in_x_namespace; pat_namespace_x; pat_in_namespace_x; pat_pods_in_x;
   pat_in_x_dash_y].

(** The loop over [namespace_patterns]: the first pattern that matches. *)
Fixpoint first_search (pats : list (list ascii -> option (list ascii)))
    (s : string) : option string :=
  match pats with
  | [] => None
  | p :: ps => match search p (L s) with
               | Some g => Some g
               | None => first_search ps s
               end
  end.

Definition resource_words : list string := ["pod"; "service"; "deployment"].
Definition stop_words : list string := ["the"; "a"; "an"; "all"; "me"; "show"].

(** Pattern "show logs for backend pod". *)
Fixpoint name_after_for (words : list string) : option string :=
  match words with
  | w :: ((nx :: rest) as tl) =>
      if mem (lower w) ["for"; "of"] && negb (mem (lower nx) common_namespaces)
         && (match rest with w2 :: _ => mem (lower w2) resource_words | [] => false end)
      then Some nx else name_after_for tl
  | _ => None
  end.

(** Pattern "backend pod" or "frontend-deployment-xyz"; [prev] is the
    previous word, absent at index 0. *)
Fixpoint name_before_kind (prev : option string) (words : list string)
  : option string :=
  match words with
  | [] => None
  | w :: ws =>
      match (if mem (lower w) resource_words then prev else None) with
      | Some cand =>
          if negb (mem (lower cand) common_namespaces)
             && negb (mem (lower cand) stop_words)
          then Some cand else name_before_kind (Some w) ws
      | None =>
          if contains "-" w && (10 <? String.length w)%nat
             && negb (mem (lower w) common_namespaces)
          then Some w else name_before_kind (Some w) ws
      end
  end.

(** Pattern "pod name for frontend". *)
Fixpoint name_for (words : list string) : option string :=
  match words with
  | w :: ((nx :: _) as tl) =>
      if String.eqb (lower w) "for" && negb (mem (lower nx) common_namespaces)
      then Some nx else name_for tl
  | _ => None
  end.

Definition jopt (o : option string) : jval :=
  match o with Some s => JStr s | None => JNull end.

Definition fallback_parse (q : string) : jdict :=
  let query_lower := lower q in
  let action :=
    if any_in ["logs"; "log"] query_lower then "logs"
    else if any_in ["describe"; "desc"; "details"] query_lower then "describe"
    else if any_in ["get"; "show"; "find"] query_lower then
      (if negb (contains "logs" query_lower) then "get" else "logs")
    else if contains "delete" query_lower then "delete"
    else "list" in
  let resource_type :=
    match find (fun rp => any_in (snd rp) query_lower) resource_patterns with
    | Some rp => fst rp
    | None => "pods"
    end in
  let ns1 :=
    if contains " in " query_lower then
      find (fun ns => contains (" in " ++ ns) query_lower
                      || contains ("in " ++ ns) query_lower) common_namespaces
    else None in
  let ns2 :=
    match ns1 with
    | Some _ => ns1
    | None =>
        find (fun ns => contains ns query_lower
                        && (contains (" " ++ ns ++ " ") query_lower
                            || endswith ns query_lower
                            || startswith ns query_lower)) common_namespaces
    end in
  let namespace :=
    match ns2 with
    | Some _ => ns2
    | None => first_search namespace_patterns query_lower
    end in
  let words := split_ws q in
  let resource_name :=
    if (match namespace with
        | Some ns => contains (" in " ++ ns) query_lower
        | None => false
        end)
    then None
    else
      match name_after_for words with
      | Some n => Some n
      | None =>
          match name_before_kind None words with
          | Some n => Some n
          | None => if contains "name for" query_lower then name_for words else None
          end
      end in
  [("resource_type", JStr resource_type); ("action", JStr action);
   ("resource_name", jopt resource_name); ("namespace", jopt namespace);
   ("additional_flags", JList [])].

(** *** [_resolve_resource_names] *)

(** The Kubernetes API client, as seen by [_resolve_resource_names] and
    [_execute_kubectl].  A namespace argument is [Some ns] for the namespaced
    calls and [None] for the cluster-wide ones ([list_node], [read_node],
    [list_namespace], [read_namespace]).  The [read_*]/[list_*] calls of
    [_execute_kubectl] are followed by a [_format_*] helper; the answer of
    those calls is the formatted text. *)
Inductive api_call :=
| ListNames (kind : string) (ns : option jval)
| ReadPodLog (name ns : jval) (tail_lines : nat)
| ReadObj (kind : string) (name : jval) (ns : option jval)
| ListObj (kind : string) (ns : option jval)
| DescribeObj (kind : string) (name ns : jval).

Record Env := mkEnv {
  parse_with_llm : string -> pyres jdict;
  list_names : api_call -> pyres (list string);
  api_text : api_call -> pyres string
}.

Definition fuzzy_patterns : list (string * list string) :=
  [("frontend", ["front"; "fe"; "ui"; "web"]);
   ("backend", ["back"; "be"; "api"; "server"]);
   ("database", ["db"; "postgres"; "mysql"; "mongo"]);
   ("redis", ["cache"; "session"]);
   ("nginx", ["proxy"; "lb"; "loadbalancer"])].

(** Strategy 4 for one name: some category whose key or alias is the partial
    name, and whose key or an alias occurs in the name. *)
Definition fuzzy_match (partial_name name_lower : string) : bool :=
  existsb (fun kp =>
    (String.eqb (fst kp) partial_name || mem partial_name (snd kp))
    && (contains (fst kp) name_lower
        || existsb (fun p => contains p name_lower) (snd kp))) fuzzy_patterns.

(** [min(matches, key=len)] for [matches = m :: ms]: the first shortest. *)
Definition min_by_len (m : string) (ms : list string) : string :=
  fold_left (fun best x => if (String.length x <? String.length best)%nat
                           then x else best) ms m.

Inductive resolution :=
| Exact (name : string)
| Best (best : string) (other_matches : option (list string))
| NoMatch.

(** The matching strategies of [_resolve_resource_names] on a non-empty list
    of live names. *)
Definition select_match (resource_names : list string) (partial_name : string)
  : resolution :=
  match find (fun n => String.eqb (lower n) partial_name) resource_names with
  | Some n => Exact n
  | None =>
    let m2 := filter (fun n => startswith partial_name (lower n)) resource_names in
    let m3 := match m2 with
              | [] => filter (fun n => contains partial_name (lower n)) resource_names
              | _ => m2
              end in
    let matches := match m3 with
                   | [] => filter (fun n => fuzzy_match partial_name (lower n)) resource_names
                   | _ => m3
                   end in
    match matches with
    | [] => NoMatch
    | m :: ms =>
        Best (min_by_len m ms)
          (if (1 <? length matches)%nat then Some (firstn 4 (skipn 1 matches))
           else None)
    end
  end.

(** The listing call made for a resource type, if any. *)
Definition listing_call (resource_type namespace : jval) : option api_call :=
  match resource_type with
  | JStr k =>
      if mem k ["pods"; "services"; "deployments"; "configmaps";
                "persistentvolumeclaims"]
      then Some (ListNames k (Some namespace))
      else if mem k ["nodes"; "namespaces"] then Some (ListNames k None)
      else None
  | _ => None
  end.

(** The "clearly full" test: [len(partial_name) > 20 and partial_name.count("-") >= 3]. *)
Definition clearly_full (partial_name : string) : bool :=
  (20 <? String.length partial_name)%nat && (3 <=? count_char "-" partial_name)%nat.

(** [_resolve_resource_names]: the resulting intent (or the exception raised
    before its [try]) and the API calls made. *)
Definition resolve_resource_names (env : Env) (intent : jdict)
  : pyres jdict * list api_call :=
  let rn := jget_or "resource_name" JNull intent in
  if negb (truthy rn) then (Ok intent, []) else
  match rn with
  | JStr s =>
    let partial_name := lower s in
    match jget "resource_type" intent with
    | None => (Exc KeyError "'resource_type'", [])
    | Some resource_type =>
      let namespace := jget_or "namespace" (JStr "default") intent in
      if clearly_full partial_name then (Ok intent, []) else
      match listing_call resource_type namespace with
      | None => (Ok intent, [])
      | Some c =>
        let r :=
          match list_names env c with
          | Exc ApiException reason =>
              jset "_resolution_note"
                (JStr ("API error while resolving resource names: " ++ reason)) intent
          | Exc _ m =>
              jset "_resolution_note" (JStr ("Error resolving resource names: " ++ m)) intent
          | Ok [] => intent
          | Ok resource_names =>
              match select_match resource_names partial_name with
              | Exact n => jset "resource_name" (JStr n) intent
              | Best b others =>
                  let d := jset "resolved_from" (JStr partial_name)
                             (jset "resource_name" (JStr b) intent) in
                  match others with
                  | Some o => jset "other_matches" (JList o) d
                  | None => d
                  end
              | NoMatch =>
                  jset "_resolution_note"
                    (JStr ("No match found for '" ++ partial_name ++ "'. Available: "
                           ++ join ", " (firstn 5 resource_names))) intent
              end
          end in
        (Ok r, [c])
      end
    end
  | _ => (Exc AttributeError "object has no attribute 'lower'", [])
  end.

(** *** [_parse_intent] *)

Definition parse_intent (env : Env) (q : string) : jdict :=
  match (d <- parse_with_llm env q ;; validate_intent d) with
  | Ok d' => d'
  | Exc ValueError error_msg =>
      if contains "Access Denied" error_msg || contains "Security Warning" error_msg
      then [("query", JStr q); ("error", JStr error_msg);
            ("suggestion", JStr "Try querying other resources like pods, services, deployments, configmaps, or ingress instead.");
            ("success", JBool false)]
      else fallback_parse q
  | Exc _ _ => fallback_parse q
  end.

(** *** [_execute_kubectl] *)

(** The resource types of the list/get branch, with the words of their error
    messages and whether they are namespaced. *)
Definition get_kinds : list (string * (string * string * bool)) :=
  [("pods", ("pod", "pods", true)); ("services", ("service", "services", true));
   ("deployments", ("deployment", "deployments", true));
   ("nodes", ("node", "nodes", false));
   ("namespaces", ("namespace", "namespaces", false))].

Definition describe_kinds : list (string * string) :=
  [("pods", "pod"); ("services", "service"); ("deployments", "deployment")].

Definition find_kind {A} (rt : jval) (l : list (string * A)) : option (string * A) :=
  match rt with
  | JStr k => find (fun e => String.eqb (fst e) k) l
  | _ => None
  end.

(** One API call inside its [try ... except ApiException]; other exceptions
    reach the outer handler of [_execute_kubectl]. *)
Definition api_step (env : Env) (c : api_call) (what : string)
  : string * list api_call :=
  (match api_text env c with
   | Ok s => s
   | Exc ApiException reason => what ++ ": " ++ reason
   | Exc _ m => "Error executing Kubernetes operation: " ++ m
   end, [c]).

Definition execute_kubectl (env : Env) (intent : jdict) : string * list api_call :=
  match jget "action" intent, jget "resource_type" intent with
  | None, _ => ("Error executing Kubernetes operation: 'action'", [])
  | _, None => ("Error executing Kubernetes operation: 'resource_type'", [])
  | Some action, Some resource_type =>
    let resource_name := jget_or "resource_name" JNull intent in
    let namespace := jget_or "namespace" (JStr "default") intent in
    if jeq_str action "logs" then
      if negb (truthy resource_name) then
        ("Error: Resource name required for logs command", [])
      else if negb (jeq_str resource_type "pods") then
        ("Error: Logs can only be retrieved for pods", [])
      else api_step env (ReadPodLog resource_name namespace 100) "Error retrieving logs"
    else if jin action ["list"; "get"] then
      match find_kind resource_type get_kinds with
      | Some (k, (sing, plural, namespaced)) =>
          let ns := if namespaced then Some namespace else None in
          if truthy resource_name
          then api_step env (ReadObj k resource_name ns) ("Error getting " ++ sing)
          else api_step env (ListObj k ns) ("Error listing " ++ plural)
      | None =>
          ("Error: Resource type '" ++ py_str resource_type ++ "' not yet supported", [])
      end
    else if jeq_str action "describe" then
      match find_kind resource_type describe_kinds with
      | Some (k, sing) =>
          if truthy resource_name
          then api_step env (DescribeObj k resource_name namespace) ("Error describing " ++ sing)
          else ("Error: Describe requires a specific resource name", [])
      | None => ("Error: Describe requires a specific resource name", [])
      end
    else ("Error: Action '" ++ py_str action ++ "' not supported", [])
  end.

(** *** [process_query] *)

Definition initial_state (q : string) : K8sState :=
  mkState q [] [] "" "" (JStr "").

(** [process_query] for a given behaviour of [self.workflow.ainvoke]. *)
Definition process_query_with (ainvoke : K8sState -> pyres K8sState) (q : string)
  : response jdict jval :=
  match ainvoke (initial_state q) with
  | Ok result =>
      mkResponse q (Some (Some (parsed_intent result)))
        (Some (kubectl_result result)) (Some (enhanced_response result))
        (Some (error result)) None (negb (truthy (error result)))
  | Exc _ m =>
      mkResponse q None None None (Some (JStr ("An unexpected error occurred: " ++ m)))
        None false
  end.

(** *** The graph nodes of [K8sAssistant] *)

Definition set_error (e : jval) (st : K8sState) : K8sState :=
  mkState (query st) (parsed_intent st) (security_check st) (kubectl_result st)
    (enhanced_response st) e.
Definition set_parsed (d : jdict) (st : K8sState) : K8sState :=
  mkState (query st) d (security_check st) (kubectl_result st)
    (enhanced_response st) (error st).
Definition set_result (r : string) (st : K8sState) : K8sState :=
  mkState (query st) (parsed_intent st) (security_check st) r
    (enhanced_response st) (error st).
Definition set_enhanced (e : string) (st : K8sState) : K8sState :=
  mkState (query st) (parsed_intent st) (security_check st) (kubectl_result st)
    e (error st).

(** [_parse_intent_node]; [_parse_intent] catches every exception itself, so
    the node's handler is never reached. *)
Definition parse_intent_node (env : Env) (st : K8sState) : K8sState :=
  let intent := parse_intent env (query st) in
  if truthy (jget_or "error" JNull intent)
  then set_error (jget_or "error" JNull intent) st
  else set_parsed intent st.

(** [_resolve_resources_node], with the API calls made. *)
Definition resolve_resources_node (env : Env) (st : K8sState) : K8sState * list api_call :=
  let '(r, calls) := resolve_resource_names env (parsed_intent st) in
  match r with
  | Ok d => (set_parsed d st, calls)
  | Exc _ m => (set_error (JStr ("Failed to resolve resources: " ++ m)) st, calls)
  end.

(** [_execute_kubectl_node]; [_execute_kubectl] catches every exception
    itself, so the node's handler is never reached. *)
Definition execute_kubectl_node (env : Env) (st : K8sState) : K8sState * list api_call :=
  let '(out, calls) := execute_kubectl env (parsed_intent st) in
  (set_result out st, calls).

Definition enhance_prompt (original_query : string) (action resource_type : jval)
  (kubectl_output : string) : string :=
  "
You are a Kubernetes expert assistant. A user asked: " ++ LangGraph.dquote ++ original_query ++ LangGraph.dquote ++ "

The system parsed this as wanting to " ++ py_str action ++ " " ++ py_str resource_type ++ " and executed a kubectl command.

Here's the kubectl output:
```
" ++ kubectl_output ++ "
```

Please provide a clear, human-friendly explanation of this output. Include:
1. A summary of what was found/shown
2. Any important observations about the status or health
3. Potential issues or recommendations if any
4. Next steps the user might want to take

Keep the response concise but informative. Use emojis sparingly for readability.
".


(** [_enhance_response] for a given [get_text_completion]; building the
    prompt reads [intent["action"]] and [intent["resource_type"]] outside the
    [try], so a missing key raises [KeyError]. *)
Definition enhance_response (get_text_completion : string -> pyres string)
  (kubectl_output : string) (intent : jdict) (original_query : string) : pyres string :=
  if String.eqb kubectl_output "" || startswith "Error:" kubectl_output then
    Ok ("Unable to execute the query. " ++ kubectl_output)
  else
    match jget "action" intent, jget "resource_type" intent with
    | None, _ => Exc KeyError "'action'"
    | _, None => Exc KeyError "'resource_type'"
    | Some a, Some rt =>
        match get_text_completion (enhance_prompt original_query a rt kubectl_output) with
        | Ok enhanced => Ok (strip enhanced)
        | Exc _ _ =>
            Ok ("Here's the kubectl output for your query:" ++ String "010"%char
                (String "010"%char kubectl_output))
        end
    end.

(** [_enhance_response_node] *)
Definition enhance_response_node (get_text_completion : string -> pyres string)
  (st : K8sState) : K8sState :=
  match enhance_response get_text_completion (kubectl_result st) (parsed_intent st)
          (query st) with
  | Ok e => set_enhanced e st
  | Exc _ _ => set_enhanced "Enhancement unavailable" st
  end.

(** *** [_calculate_age] *)

(** [str(n)] for a non-negative integer. *)
Fixpoint digits_aux (fuel : nat) (n : Z) (acc : string) : string :=
  match fuel with
  | O => acc
  | S f =>
      let acc' := String (ascii_of_nat (48 + Z.to_nat (n mod 10))) acc in
      if (n <? 10)%Z then acc' else digits_aux f (n / 10)%Z acc'
  end.

(** [str(n)] for an integer; [log2 |n| + 1] steps cover all its digits. *)
Definition py_int (n : Z) : string :=
  if (n <? 0)%Z
  then "-" ++ digits_aux (S (Z.to_nat (Z.log2 (- n)))) (- n) ""
  else digits_aux (S (Z.to_nat (Z.log2 n))) n "".

(** [_calculate_age], with the clock reading [now] as a parameter.  Instants
    are integers of microseconds in UTC (a naive timestamp is read as UTC, as
    the code does with [replace(tzinfo=utc)]); [None] is a missing timestamp.
    The difference is a [timedelta], normalised as Python does: [days] is the
    floor of the difference in days and [seconds] is in [0, 86399]. *)
Definition calculate_age (now : Z) (creation_timestamp : option Z) : string :=
  match creation_timestamp with
  | None => "Unknown"
  | Some ts =>
      let age := (now - ts)%Z in
      let days := (age / 86400000000)%Z in
      let seconds := ((age mod 86400000000) / 1000000)%Z in
      if (0 <? days)%Z then py_int days ++ "d"
      else if (3600 <? seconds)%Z then py_int (seconds / 3600) ++ "h"
      else if (60 <? seconds)%Z then py_int (seconds / 60) ++ "m"
      else py_int seconds ++ "s"
  end.

End K8sAssistant.

(** ** Concrete collaborators used by the examples below *)

Module Samples.

(** [n] lines of log text. *)
Fixpoint log_lines (n : nat) : string :=
  match n with
  | O => ""
  | S n' => "log line" ++ String "010"%char (log_lines n')
  end.

(** The LLM is unavailable and every [kubectl] call times out. *)
Definition lg_env_timeout : LangGraph.Env :=
  LangGraph.mkEnv (fun _ => Exc OtherException "model unavailable")
    (fun _ => Ok "summary") (fun _ _ => LangGraph.TimeoutExpired).

(** The LLM is unavailable and [kubectl] answers with one pod. *)
Definition lg_env_ok : LangGraph.Env :=
  LangGraph.mkEnv (fun _ => Exc OtherException "model unavailable")
    (fun _ => Ok "summary")
    (fun _ _ => LangGraph.Completed 0 "pod/backend-7f9c" "").

(** The LLM names the [secrets] resource type. *)
Definition lg_env_secret_llm : LangGraph.Env :=
  LangGraph.mkEnv
    (fun _ => Ok [("resource_type", JStr "secrets"); ("action", JStr "list")])
    (fun _ => Ok "summary")
    (fun _ _ => LangGraph.Completed 0 "pod/backend-7f9c" "").

(** [kubectl] lists the names [mybackend] and [backend]. *)
Definition lg_env_two_names : LangGraph.Env :=
  LangGraph.mkEnv (fun _ => Exc OtherException "model unavailable")
    (fun _ => Ok "summary")
    (fun _ _ => LangGraph.Completed 0 "pod/mybackend
pod/backend" "").

(** [kubectl logs] prints 150 lines. *)
Definition lg_env_long_logs : LangGraph.Env :=
  LangGraph.mkEnv (fun _ => Exc OtherException "model unavailable")
    (fun _ => Ok "summary")
    (fun _ _ => LangGraph.Completed 0 (log_lines 150) "").

(** The same LLM answer for the API-client assistant. *)
Definition k8s_env_secret_llm : K8sAssistant.Env :=
  K8sAssistant.mkEnv
    (fun _ => Ok [("resource_type", JStr "secrets"); ("action", JStr "list")])
    (fun _ => Ok ["backend-7f9c"]) (fun _ => Ok "NAME").

(** An API client that lists [backend-7f9c] and answers every read. *)
Definition k8s_env_ok : K8sAssistant.Env :=
  K8sAssistant.mkEnv (fun _ => Exc OtherException "model unavailable")
    (fun _ => Ok ["backend-7f9c"]) (fun _ => Ok "NAME").

(** A LangGraph intent. *)
Definition lg_intent (rt act : string) (name : jval) : LangGraph.K8sIntent :=
  LangGraph.mkIntent (JStr rt) (JStr act) name JNull (JList []).

(** A state holding an intent, as the execution node receives it. *)
Definition lg_state_with (i : LangGraph.K8sIntent) : LangGraph.K8sState :=
  LangGraph.set_intent (Some i) (LangGraph.set_passed (LangGraph.initial_state "q")).

(** Number of lines of a text. *)
Definition line_count (s : string) : nat := length (split_on "010"%char s).

(** Suggestions of the LangGraph envelope. *)
Definition timeout_hint : string := "The cluster may be unresponsive. Try again later.".

Definition read_only_hint : string :=
  "You can only perform read-only operations like 'list', 'get', 'describe', and 'logs'.".

End Samples.

(** ** Specification predicates *)

(** [b] (with the runner-up list [o]) is a shortest name of [names] among
    those satisfying [P], and every recorded runner-up satisfies [P]; at most
    four runners-up are recorded. *)
Definition picks (P : string -> bool) (names : list string) (b : string)
  (o : option (list string)) : Prop :=
  In b names /\ P b = true /\
  (forall m, In m names -> P m = true -> (String.length b <= String.length m)%nat) /\
  (forall l, o = Some l -> (length l <= 4)%nat /\
     forall x, In x l -> In x names /\ P x = true).

(** ** Shared lemmas *)

Lemma append_nonempty_eqb (c : ascii) (s t : string) :
  String.eqb (String c s ++ t) "" = false.
Proof. reflexivity. Qed.

Lemma find_some_spec {A} (f : A -> bool) (l : list A) (x : A) :
  find f l = Some x -> In x l /\ f x = true.
Proof. apply find_some. Qed.

Lemma find_none_spec {A} (f : A -> bool) (l : list A) (x : A) :
  find f l = None -> In x l -> f x = false.
Proof. intros H Hin. exact (find_none f l H x Hin). Qed.

Module LangGraphFacts.
Import LangGraph Samples.

Lemma security_warning_truthy (b : string) :
  err_truthy (Some (security_warning b)) = true.
Proof. reflexivity. Qed.

(** C2: every query whose lowercased text contains one of the banned action
    tokens (all lowercase, so this is a case-insensitive substring match),
    whatever else it contains, ends at the error handler without any
    subprocess call, and [process_query] returns [success=false] with the
    security warning naming a banned token that occurs in the query. *)
Theorem banned_token_blocks_pipeline (env : Env) (q b : string) :
  In b banned_actions -> contains b (lower q) = true ->
  exists b', In b' banned_actions /\ contains b' (lower q) = true /\
    fst (fst (workflow env (initial_state q))) = ErrorHandler /\
    snd (workflow env (initial_state q)) = [] /\
    process_query env q =
      mkResponse q None None None (Some (security_warning b'))
        (Some (Some read_only_hint)) false.
Proof.
  intros Hin Hc.
  destruct (find (fun b0 => contains b0 (lower q)) banned_actions) as [b'|] eqn:E.
  - destruct (find_some_spec _ _ _ E) as [Hin' Hc'].
    exists b'. split; [exact Hin'|]. split; [exact Hc'|].
    unfold process_query, process_query_with, workflow, security_check_node.
    simpl query. rewrite E. simpl. auto.
  - pose proof (find_none_spec _ _ b E Hin) as Hf. simpl in Hf.
    rewrite Hc in Hf. discriminate.
Qed.

Lemma banned_token_blocks_pipeline_witness :
  In "delete" banned_actions /\ contains "delete" (lower "delete pod backend") = true /\
  exists b', In b' banned_actions /\ contains b' (lower "delete pod backend") = true /\
    fst (fst (workflow lg_env_ok (initial_state "delete pod backend"))) = ErrorHandler /\
    snd (workflow lg_env_ok (initial_state "delete pod backend")) = [] /\
    process_query lg_env_ok "delete pod backend" =
      mkResponse "delete pod backend" None None None (Some (security_warning b'))
        (Some (Some read_only_hint)) false.
Proof.
  split; [simpl; auto|]. split; [reflexivity|].
  apply (banned_token_blocks_pipeline lg_env_ok "delete pod backend" "delete");
    [simpl; auto | reflexivity].
Defined.

(** Destruct the first [match] scrutinee of the goal. *)
Ltac case_match :=
  match goal with
  | |- context [match ?x with _ => _ end] => destruct x eqn:?
  end.

Lemma parse_intent_node_spec (env : Env) (st : K8sState) :
  error (parse_intent_node env st) = error st /\
  suggestion (parse_intent_node env st) = suggestion st /\
  query (parse_intent_node env st) = query st /\
  exists i, intent (parse_intent_node env st) = Some i.
Proof.
  unfold parse_intent_node. case_match; simpl; eauto.
Qed.

Lemma resolve_resource_name_calls (env : Env) (i : K8sIntent) (c : list string) (t : Z) :
  In (c, t) (snd (resolve_resource_name env i)) -> t = 10%Z.
Proof.
  unfold resolve_resource_name.
  repeat (case_match; simpl; try tauto).
  all: intros [H|[]]; inversion H; reflexivity.
Qed.

Lemma resolve_resources_node_spec (env : Env) (st : K8sState) :
  error (fst (resolve_resources_node env st)) = error st /\
  suggestion (fst (resolve_resources_node env st)) = suggestion st /\
  query (fst (resolve_resources_node env st)) = query st /\
  (intent st <> None -> intent (fst (resolve_resources_node env st)) <> None) /\
  (forall c t, In (c, t) (snd (resolve_resources_node env st)) -> t = 10%Z).
Proof.
  unfold resolve_resources_node.
  destruct (intent st) as [i|] eqn:Hi; simpl; [|rewrite Hi; intuition].
  destruct (negb (truthy (resource_name i))); simpl.
  - rewrite Hi. intuition.
  - destruct (resolve_resource_name env i) as [r calls] eqn:Hr.
    assert (Hc : forall c t, In (c, t) calls -> t = 10%Z).
    { intros c t H. apply (resolve_resource_name_calls env i c).
      rewrite Hr. exact H. }
    destruct r; simpl; [|rewrite Hi]; split; auto; split; auto; split; auto;
      split; [discriminate || congruence | exact Hc].
Qed.

Lemma execute_kubectl_node_timeout (env : Env) (st : K8sState) (i : K8sIntent) :
  intent st = Some i ->
  (forall c, subprocess_run env c 30 = TimeoutExpired) ->
  err_truthy (error (fst (execute_kubectl_node env st))) = true /\
  (exists s, suggestion (fst (execute_kubectl_node env st)) = Some s) /\
  query (fst (execute_kubectl_node env st)) = query st /\
  (forall c t, In (c, t) (snd (execute_kubectl_node env st)) ->
     t = 30%Z /\ error (fst (execute_kubectl_node env st)) = Some "kubectl command timed out"
     /\ suggestion (fst (execute_kubectl_node env st)) = Some timeout_hint).
Proof.
  intros Hi Ht. unfold execute_kubectl_node. rewrite Hi.
  destruct (build_kubectl_command i) as [cmd|k m].
  - destruct (as_strings cmd) as [c|].
    + rewrite Ht. simpl. split; [reflexivity|]. split; [eauto|]. split; [reflexivity|].
      intros c' t [H|[]]. inversion H. auto.
    + simpl. split; [reflexivity|]. split; [eauto|]. split; [reflexivity|]. intros c t [].
  - simpl. split; [reflexivity|]. split; [eauto|]. split; [reflexivity|]. intros c t [].
Qed.

Lemma enhance_response_node_error (env : Env) (st : K8sState) :
  err_truthy (error st) = true -> enhance_response_node env st = st.
Proof.
  intros H. unfold enhance_response_node. rewrite H, orb_true_r. reflexivity.
Qed.

(** C1 fails: for the query "list all pods" with a [kubectl] that times out,
    the envelope has [success=false], not [success=true]. *)
Lemma execution_timeout_not_success :
  r_success (process_query lg_env_timeout "list all pods") = false /\
  r_error (process_query lg_env_timeout "list all pods") = Some "kubectl command timed out".
Proof. vm_compute. split; reflexivity. Qed.

(** C3: the LangGraph security gate lets the singular form [secret] and the
    binding form [rolebinding] through (its lexicon is only [secrets],
    [roles], [clusterroles]); the query then runs a [kubectl] command and
    succeeds.  The gate of [K8sAssistant] blocks the same query with an
    access-denied reason naming [secret]. *)
Theorem restricted_singular_passes_gate :
  router (security_check_node (initial_state "show secret db-password")) = RContinue /\
  router (security_check_node (initial_state "list rolebinding viewer")) = RContinue /\
  fst (fst (workflow lg_env_ok (initial_state "show secret db-password"))) = EnhanceResponse /\
  snd (workflow lg_env_ok (initial_state "show secret db-password")) <> [] /\
  r_success (process_query lg_env_ok "show secret db-password") = true /\
  K8sAssistant.error (K8sAssistant.security_check_node
    (K8sAssistant.initial_state "show secret db-password"))
    = JStr (K8sAssistant.access_denied "secret").
Proof. vm_compute. repeat split; congruence. Qed.

(** C4: when the LLM names the restricted type [secrets] for a query whose
    text passes the gate, the LangGraph validation raises, but the parse node
    catches it and continues with the fallback intent: the pipeline lists pods
    and reports [success=true].  [K8sAssistant._parse_intent] turns the same
    validation failure into an access-denied error. *)
Theorem restricted_intent_substituted :
  validate_intent [("resource_type", JStr "secrets"); ("action", JStr "list")]
    = Exc ValueError "Access denied to secrets" /\
  router (security_check_node (initial_state "list the s3cr3t stores")) = RContinue /\
  intent (parse_intent_node lg_env_secret_llm
            (security_check_node (initial_state "list the s3cr3t stores")))
    = Some (lg_intent "pods" "list" JNull) /\
  fst (fst (workflow lg_env_secret_llm (initial_state "list the s3cr3t stores")))
    = EnhanceResponse /\
  snd (workflow lg_env_secret_llm (initial_state "list the s3cr3t stores"))
    = [(["kubectl"; "get"; "pods"], 30%Z)] /\
  r_success (process_query lg_env_secret_llm "list the s3cr3t stores") = true /\
  jget "error" (K8sAssistant.parse_intent k8s_env_secret_llm "list the s3cr3t stores")
    = Some (JStr (K8sAssistant.access_denied "secrets")).
Proof. vm_compute. repeat split; reflexivity. Qed.

End LangGraphFacts.

(** ** Lemmas on the helpers of both assistants *)

Lemma lower_length (s : string) : String.length (lower s) = String.length s.
Proof. induction s; simpl; auto. Qed.

Lemma lower_ascii_dash (c : ascii) :
  Ascii.eqb "-" (lower_ascii c) = Ascii.eqb "-" c.
Proof. destruct c as [[] [] [] [] [] [] [] []]; reflexivity. Qed.

Lemma lower_count_dash (s : string) : count_char "-" (lower s) = count_char "-" s.
Proof.
  induction s; cbn [lower count_char]; [reflexivity|].
  rewrite lower_ascii_dash, IHs. reflexivity.
Qed.

Lemma clearly_full_lower (s : string) :
  K8sAssistant.clearly_full (lower s) = K8sAssistant.clearly_full s.
Proof. unfold K8sAssistant.clearly_full. rewrite lower_length, lower_count_dash. reflexivity. Qed.

Lemma in_firstn_incl {A} (n : nat) (l : list A) (x : A) : In x (firstn n l) -> In x l.
Proof. intros H. rewrite <- (firstn_skipn n l). apply in_or_app. auto. Qed.

Lemma in_skipn_incl {A} (n : nat) (l : list A) (x : A) : In x (skipn n l) -> In x l.
Proof. intros H. rewrite <- (firstn_skipn n l). apply in_or_app. auto. Qed.

Lemma filter_all_false {A} (f : A -> bool) (l : list A) :
  (forall x, In x l -> f x = false) -> filter f l = [].
Proof.
  induction l as [|a l IH]; intros H; simpl; [reflexivity|].
  rewrite (H a (or_introl eq_refl)). apply IH. intros x Hx. apply H. right. exact Hx.
Qed.

Lemma min_by_len_spec (m : string) (ms : list string) :
  In (K8sAssistant.min_by_len m ms) (m :: ms) /\
  forall x, In x (m :: ms) ->
    (String.length (K8sAssistant.min_by_len m ms) <= String.length x)%nat.
Proof.
  unfold K8sAssistant.min_by_len. revert m.
  induction ms as [|y ms IH]; intros m; simpl.
  - split; [auto|]. intros x [<-|[]]. lia.
  - destruct (Nat.ltb_spec (String.length y) (String.length m)) as [Hlt|Hge].
    + destruct (IH y) as [Hin Hle]. split.
      * destruct Hin as [<-|H]; simpl; auto.
      * intros x [<-|Hx].
        -- pose proof (Hle y (or_introl eq_refl)). lia.
        -- apply Hle. exact Hx.
    + destruct (IH m) as [Hin Hle]. split.
      * destruct Hin as [<-|H]; simpl; auto.
      * intros x [<-|[<-|Hx]].
        -- apply Hle. left. reflexivity.
        -- pose proof (Hle m (or_introl eq_refl)). lia.
        -- apply Hle. right. exact Hx.
Qed.

Lemma best_of_filter (P : string -> bool) (names : list string) (m : string) (ms : list string) :
  filter P names = m :: ms ->
  picks P names (K8sAssistant.min_by_len m ms)
    (if (1 <? length (m :: ms))%nat then Some (firstn 4 (skipn 1 (m :: ms))) else None).
Proof.
  intros F.
  assert (Hf : forall x, In x (m :: ms) <-> In x names /\ P x = true).
  { intros x. rewrite <- F. apply filter_In. }
  destruct (min_by_len_spec m ms) as [Hin Hle].
  apply Hf in Hin. destruct Hin as [Hin Hp].
  split; [exact Hin|]. split; [exact Hp|]. split.
  - intros x Hx Hpx. apply Hle. apply Hf. auto.
  - intros l Hl. destruct (1 <? length (m :: ms))%nat; [|discriminate].
    assert (Heq : firstn 4 (skipn 1 (m :: ms)) = l) by congruence. subst l.
    split; [apply firstn_le_length|].
    intros x Hx. apply Hf. apply in_skipn_incl with (n := 1%nat).
    apply in_firstn_incl with (n := 4%nat). exact Hx.
Qed.

Lemma security_check_node_query (st : LangGraph.K8sState) :
  LangGraph.query (LangGraph.security_check_node st) = LangGraph.query st.
Proof. unfold LangGraph.security_check_node. repeat LangGraphFacts.case_match; reflexivity. Qed.

Lemma execute_kubectl_node_query (env : LangGraph.Env) (st : LangGraph.K8sState) :
  LangGraph.query (fst (LangGraph.execute_kubectl_node env st)) = LangGraph.query st.
Proof. unfold LangGraph.execute_kubectl_node. repeat LangGraphFacts.case_match; reflexivity. Qed.

Lemma enhance_response_node_query (env : LangGraph.Env) (st : LangGraph.K8sState) :
  LangGraph.query (LangGraph.enhance_response_node env st) = LangGraph.query st.
Proof. unfold LangGraph.enhance_response_node. repeat LangGraphFacts.case_match; reflexivity. Qed.

Lemma error_handler_node_query (st : LangGraph.K8sState) :
  LangGraph.query (LangGraph.error_handler_node st) = LangGraph.query st.
Proof. unfold LangGraph.error_handler_node. repeat LangGraphFacts.case_match; reflexivity. Qed.

Lemma workflow_query (env : LangGraph.Env) (st : LangGraph.K8sState) :
  LangGraph.query (snd (fst (LangGraph.workflow env st))) = LangGraph.query st.
Proof.
  unfold LangGraph.workflow.
  destruct (LangGraph.router (LangGraph.security_check_node st)).
  - destruct (LangGraph.router (LangGraph.parse_intent_node env (LangGraph.security_check_node st))).
    + destruct (LangGraph.resolve_resources_node env
                  (LangGraph.parse_intent_node env (LangGraph.security_check_node st)))
        as [s3 c3] eqn:E3.
      destruct (LangGraph.execute_kubectl_node env s3) as [s4 c4] eqn:E4. simpl.
      rewrite enhance_response_node_query.
      replace s4 with (fst (LangGraph.execute_kubectl_node env s3)) by (rewrite E4; reflexivity).
      rewrite execute_kubectl_node_query.
      replace s3 with (fst (LangGraph.resolve_resources_node env
                  (LangGraph.parse_intent_node env (LangGraph.security_check_node st))))
        by (rewrite E3; reflexivity).
      destruct (LangGraphFacts.resolve_resources_node_spec env
                  (LangGraph.parse_intent_node env (LangGraph.security_check_node st)))
        as (_ & _ & -> & _).
      destruct (LangGraphFacts.parse_intent_node_spec env (LangGraph.security_check_node st))
        as (_ & _ & -> & _).
      apply security_check_node_query.
    + simpl. rewrite error_handler_node_query.
      destruct (LangGraphFacts.parse_intent_node_spec env (LangGraph.security_check_node st))
        as (_ & _ & -> & _).
      apply security_check_node_query.
  - simpl. rewrite error_handler_node_query. apply security_check_node_query.
Qed.

(** ** The execution envelope of the LangGraph assistant *)

Lemma as_strings_map (l : list string) : as_strings (map JStr l) = Some l.
Proof. induction l as [|x l IH]; [reflexivity | simpl; rewrite IH; reflexivity]. Qed.

Module ExecutionFacts.
Import LangGraph Samples.

(** Whatever goes wrong in the execution node (no intent, a command that
    cannot be built, a non-zero exit, a timeout, a raised subprocess error),
    unless a [kubectl] call of the node exits with code 0, the node leaves a
    truthy error and a suggestion. *)
Lemma execute_kubectl_node_failure (env : Env) (st : K8sState) :
  (forall c so se, In (c, 30%Z) (snd (execute_kubectl_node env st)) ->
     subprocess_run env c 30 <> Completed 0 so se) ->
  err_truthy (error (fst (execute_kubectl_node env st))) = true /\
  (exists s, suggestion (fst (execute_kubectl_node env st)) = Some s).
Proof.
  unfold execute_kubectl_node.
  destruct (intent st) as [i|]; [|intros _; simpl; split; [reflexivity | eauto]].
  destruct (build_kubectl_command i) as [cmd|k m]; [|intros _; simpl; split; [reflexivity | eauto]].
  destruct (as_strings cmd) as [c|]; [|intros _; simpl; split; [reflexivity | eauto]].
  intros H. specialize (H c).
  destruct (subprocess_run env c 30) as [rc so se| |k m] eqn:R.
  - destruct (Z.eqb_spec rc 0) as [->|_].
    + exfalso. apply (H so se); [left; reflexivity | reflexivity].
    + simpl. split; [reflexivity | eauto].
  - simpl. split; [reflexivity | eauto].
  - simpl. split; [reflexivity | eauto].
Qed.

(** C1 (as amended): in the LangGraph assistant, for a query that passes the
    security gate, the pipeline always runs to its last node (the enhancement
    node, not the error handler) and [process_query] returns a response
    carrying the query.  Whenever the execution fails, i.e. no [kubectl] call
    of the run exits with code 0 (a non-zero exit, a timeout, a raised
    subprocess error, or a command that could not be built and so was never
    run), the envelope has [success=false], a non-empty error text and a
    suggestion.  When every call times out and the command was run, the
    error is ["kubectl command timed out"] with the matching suggestion. *)
Theorem execution_error_envelope (env : Env) (q : string) :
  router (security_check_node (initial_state q)) = RContinue ->
  fst (fst (workflow env (initial_state q))) = EnhanceResponse /\
  r_query (process_query env q) = q /\
  ((forall c so se, In (c, 30%Z) (snd (workflow env (initial_state q))) ->
      subprocess_run env c 30 <> Completed 0 so se) ->
   r_success (process_query env q) = false /\
   (exists e, r_error (process_query env q) = Some e /\ err_truthy (Some e) = true) /\
   (exists s, r_suggestion (process_query env q) = Some (Some s))) /\
  ((forall c, subprocess_run env c 30 = TimeoutExpired) ->
   (exists c, In (c, 30%Z) (snd (workflow env (initial_state q)))) ->
   r_error (process_query env q) = Some "kubectl command timed out" /\
   r_suggestion (process_query env q) = Some (Some timeout_hint)).
Proof.
  intros Hsec.
  pose proof (workflow_query env (initial_state q)) as Hwq.
  set (s1 := security_check_node (initial_state q)) in *.
  pose proof (LangGraphFacts.parse_intent_node_spec env s1) as [He2 [Hs2 [Hq2 [i2 Hi2]]]].
  set (s2 := parse_intent_node env s1) in *.
  assert (Hr2 : router s2 = RContinue).
  { unfold router in *. rewrite He2. exact Hsec. }
  pose proof (LangGraphFacts.resolve_resources_node_spec env s2) as [He3 [Hs3 [Hq3 [Hi3 Hc3]]]].
  destruct (resolve_resources_node env s2) as [s3 c3] eqn:Hres. simpl in *.
  pose proof (execute_kubectl_node_failure env s3) as Hfail.
  pose proof (fun i3 Hi Ht => LangGraphFacts.execute_kubectl_node_timeout env s3 i3 Hi Ht)
    as Htime.
  destruct (execute_kubectl_node env s3) as [s4 c4] eqn:Hexe. simpl in *.
  assert (Hw : workflow env (initial_state q) =
               (EnhanceResponse, enhance_response_node env s4, (c3 ++ c4)%list)).
  { unfold workflow. fold s1. rewrite Hsec. fold s2. rewrite Hr2, Hres, Hexe. reflexivity. }
  rewrite Hw in Hwq |- *. simpl in Hwq.
  assert (Hpq : process_query env q = format_response (enhance_response_node env s4)).
  { unfold process_query, process_query_with. rewrite Hw. reflexivity. }
  rewrite Hpq.
  split; [reflexivity|].
  split.
  { unfold format_response. destruct (err_truthy (error (enhance_response_node env s4)));
      exact Hwq. }
  split.
  - intros Hno.
    assert (Hf : err_truthy (error s4) = true /\ exists s, suggestion s4 = Some s).
    { apply Hfail. intros c so se Hin. apply Hno. simpl. apply in_or_app. right. exact Hin. }
    destruct Hf as [He4 [sg Hs4]].
    rewrite (LangGraphFacts.enhance_response_node_error env s4 He4).
    unfold format_response. rewrite He4. simpl.
    split; [reflexivity|].
    destruct (error s4) as [e|] eqn:Herr; [|discriminate He4].
    split; [exists e; split; [reflexivity | exact He4]|].
    rewrite Hs4. eauto.
  - intros Ht [c Hin]. simpl in Hin.
    destruct (intent s3) as [i3|] eqn:Hi3'; [|exfalso; apply Hi3; congruence].
    destruct (Htime i3 eq_refl Ht) as [He4 [[sg Hs4] [Hq4 Hc4]]].
    rewrite (LangGraphFacts.enhance_response_node_error env s4 He4).
    unfold format_response. rewrite He4. simpl.
    apply in_app_or in Hin as [Hin|Hin].
    + apply Hc3 in Hin. discriminate.
    + destruct (Hc4 c 30%Z Hin) as [_ [He Hs]].
      split; [exact He | rewrite Hs; reflexivity].
Qed.

Lemma execution_error_envelope_witness :
  router (security_check_node (initial_state "list all pods")) = RContinue /\
  fst (fst (workflow lg_env_timeout (initial_state "list all pods"))) = EnhanceResponse /\
  r_query (process_query lg_env_timeout "list all pods") = "list all pods" /\
  ((forall c so se, In (c, 30%Z) (snd (workflow lg_env_timeout (initial_state "list all pods"))) ->
      subprocess_run lg_env_timeout c 30 <> Completed 0 so se) ->
   r_success (process_query lg_env_timeout "list all pods") = false /\
   (exists e, r_error (process_query lg_env_timeout "list all pods") = Some e /\
              err_truthy (Some e) = true) /\
   (exists s, r_suggestion (process_query lg_env_timeout "list all pods") = Some (Some s))) /\
  ((forall c, subprocess_run lg_env_timeout c 30 = TimeoutExpired) ->
   (exists c, In (c, 30%Z) (snd (workflow lg_env_timeout (initial_state "list all pods")))) ->
   r_error (process_query lg_env_timeout "list all pods") = Some "kubectl command timed out" /\
   r_suggestion (process_query lg_env_timeout "list all pods") = Some (Some timeout_hint)).
Proof.
  assert (H : router (security_check_node (initial_state "list all pods")) = RContinue)
    by (vm_compute; reflexivity).
  split; [exact H|]. exact (execution_error_envelope lg_env_timeout "list all pods" H).
Defined.

End ExecutionFacts.

(** ** Facts about the fallback parser, the resolver, the executor and
    [process_query] of both assistants *)

Module PipelineFacts.
Import Samples.

(** C5 (as amended): on ["pods in kube-system"] the fallback parser of
    [K8sAssistant] yields resource type [pods], action [list], no resource
    name and namespace [kube-system].  The fallback parser of the LangGraph
    assistant never sets a resource name or a namespace: on the same query it
    yields [pods], [list], no name and no namespace. *)
Theorem fallback_parse_pods_in_kube_system :
  K8sAssistant.fallback_parse "pods in kube-system" =
    [("resource_type", JStr "pods"); ("action", JStr "list");
     ("resource_name", JNull); ("namespace", JStr "kube-system");
     ("additional_flags", JList [])] /\
  LangGraph.fallback_parse "pods in kube-system" =
    LangGraph.mkIntent (JStr "pods") (JStr "list") JNull JNull (JList []) /\
  (forall q, LangGraph.resource_name (LangGraph.fallback_parse q) = JNull /\
             LangGraph.namespace (LangGraph.fallback_parse q) = JNull).
Proof.
  split; [vm_compute; reflexivity|]. split; [vm_compute; reflexivity|].
  intros q. split; reflexivity.
Qed.

(** C5 fails for the pipeline served by the router: with the LLM unavailable,
    [process_query] of the LangGraph assistant on ["pods in kube-system"]
    reports the fallback intent, whose namespace is [None], not
    ["kube-system"]. *)
Lemma fallback_parse_namespace_dropped :
  LangGraph.namespace (LangGraph.fallback_parse "pods in kube-system") = JNull /\
  r_parsed_intent (LangGraph.process_query lg_env_ok "pods in kube-system")
    = Some (Some (lg_intent "pods" "list" JNull)).
Proof. vm_compute. split; reflexivity. Qed.

Lemma k8s_select_match_precedence (resource_names : list string) (partial_name : string) :
  ((exists n, In n resource_names /\ lower n = partial_name) ->
   exists n, K8sAssistant.select_match resource_names partial_name = K8sAssistant.Exact n /\
     In n resource_names /\ lower n = partial_name) /\
  ((forall n, In n resource_names -> lower n <> partial_name) ->
   (exists n, In n resource_names /\ startswith partial_name (lower n) = true) ->
   exists b o, K8sAssistant.select_match resource_names partial_name = K8sAssistant.Best b o /\
     picks (fun n => startswith partial_name (lower n)) resource_names b o) /\
  ((forall n, In n resource_names -> lower n <> partial_name) ->
   (forall n, In n resource_names -> startswith partial_name (lower n) = false) ->
   (exists n, In n resource_names /\ contains partial_name (lower n) = true) ->
   exists b o, K8sAssistant.select_match resource_names partial_name = K8sAssistant.Best b o /\
     picks (fun n => contains partial_name (lower n)) resource_names b o).
Proof.
  unfold K8sAssistant.select_match.
  destruct (find (fun n => String.eqb (lower n) partial_name) resource_names) as [e|] eqn:E.
  - destruct (find_some_spec _ _ _ E) as [Hin He]. apply String.eqb_eq in He.
    split; [intros _; exists e; auto|].
    split; intros Hne; exfalso; exact (Hne e Hin He).
  - split.
    { intros (n & Hin & Hn). pose proof (find_none_spec _ _ n E Hin) as Hf. simpl in Hf.
      rewrite Hn, String.eqb_refl in Hf. discriminate. }
    split.
    + intros _ (n & Hin & Hp).
      destruct (filter (fun n => startswith partial_name (lower n)) resource_names)
        as [|m ms] eqn:F.
      * exfalso. assert (Hf : In n (filter (fun n => startswith partial_name (lower n))
                                      resource_names)) by (apply filter_In; auto).
        rewrite F in Hf. destruct Hf.
      * do 2 eexists. split; [reflexivity|]. apply best_of_filter. exact F.
    + intros _ Hnp (n & Hin & Hc).
      rewrite (filter_all_false _ _ Hnp).
      destruct (filter (fun n => contains partial_name (lower n)) resource_names)
        as [|m ms] eqn:F.
      * exfalso. assert (Hf : In n (filter (fun n => contains partial_name (lower n))
                                      resource_names)) by (apply filter_In; auto).
        rewrite F in Hf. destruct Hf.
      * do 2 eexists. split; [reflexivity|]. apply best_of_filter. exact F.
Qed.

Lemma find_first {A} (f : A -> bool) (l : list A) (x : A) :
  find f l = Some x ->
  exists pre post, l = (pre ++ x :: post)%list /\ f x = true /\
    forall y, In y pre -> f y = false.
Proof.
  induction l as [|a l IH]; simpl; [discriminate|].
  destruct (f a) eqn:Fa.
  - intros H. injection H as <-. exists [], l. split; [reflexivity|]. split; [exact Fa|].
    intros y [].
  - intros H. destruct (IH H) as (pre & post & -> & Fx & Hpre).
    exists (a :: pre), post. split; [reflexivity|]. split; [exact Fx|].
    intros y [<-|Hy]; [exact Fa | exact (Hpre y Hy)].
Qed.

Lemma lg_resolve_first_match (env : LangGraph.Env) (i : LangGraph.K8sIntent)
  (s : string) (c : list string) (so se : string) :
  LangGraph.resource_name i = JStr s ->
  snd (LangGraph.resolve_resource_name env i) = [(c, 10%Z)] ->
  LangGraph.subprocess_run env c 10 = LangGraph.Completed 0 so se ->
  (exists pre r post, LangGraph.resource_names_of so = (pre ++ r :: post)%list /\
     contains (lower s) (lower r) = true /\
     (forall x, In x pre -> contains (lower s) (lower x) = false) /\
     fst (LangGraph.resolve_resource_name env i) = Ok (JStr r)) \/
  ((forall x, In x (LangGraph.resource_names_of so) -> contains (lower s) (lower x) = false) /\
   fst (LangGraph.resolve_resource_name env i) = Ok (JStr s)).
Proof.
  intros Hn Hc Hr. revert Hc.
  unfold LangGraph.resolve_resource_name. cbv zeta. rewrite Hn.
  destruct (negb (truthy (JStr s))); [simpl; intros H; discriminate H|].
  cbn [LangGraph.py_len].
  destruct (20 <? String.length s)%nat; [simpl; intros H; discriminate H|].
  destruct (as_strings _) as [c'|]; [|simpl; intros H; discriminate H].
  simpl. intros H. injection H as ->. rewrite Hr. simpl.
  destruct (find (fun r => contains (lower s) (lower r)) (LangGraph.resource_names_of so))
    as [r|] eqn:F.
  - left. destruct (find_first _ _ _ F) as (pre & post & E & Fr & Hpre).
    exists pre, r, post. split; [exact E|]. split; [exact Fr|]. split; [exact Hpre|].
    reflexivity.
  - right. split; [intros x Hx; exact (find_none_spec _ _ x F Hx) | reflexivity].
Qed.

(** C6 (as amended), for the resolver of [K8sAssistant]: if a live name equals
    the partial name up to case, that name is selected; otherwise, if some
    name starts with the partial name, the selected name is a shortest such
    name (even when a shorter name merely contains the partial name);
    otherwise, if some name contains it, the selected name is a shortest
    containing name.  At most four runners-up are recorded, all taken from the
    same match set.  The resolver of the LangGraph assistant has no such
    precedence: after a successful [kubectl get <type> -o name] it takes the
    first listed name that contains the partial name (ignoring case), exact
    or not, and keeps the partial name when none does. *)
Theorem select_match_precedence :
  (forall (resource_names : list string) (partial_name : string),
  ((exists n, In n resource_names /\ lower n = partial_name) ->
   exists n, K8sAssistant.select_match resource_names partial_name = K8sAssistant.Exact n /\
     In n resource_names /\ lower n = partial_name) /\
  ((forall n, In n resource_names -> lower n <> partial_name) ->
   (exists n, In n resource_names /\ startswith partial_name (lower n) = true) ->
   exists b o, K8sAssistant.select_match resource_names partial_name = K8sAssistant.Best b o /\
     picks (fun n => startswith partial_name (lower n)) resource_names b o) /\
  ((forall n, In n resource_names -> lower n <> partial_name) ->
   (forall n, In n resource_names -> startswith partial_name (lower n) = false) ->
   (exists n, In n resource_names /\ contains partial_name (lower n) = true) ->
   exists b o, K8sAssistant.select_match resource_names partial_name = K8sAssistant.Best b o /\
     picks (fun n => contains partial_name (lower n)) resource_names b o)) /\
  (forall (env : LangGraph.Env) (i : LangGraph.K8sIntent) (s : string) (c : list string)
          (so se : string),
    LangGraph.resource_name i = JStr s ->
    snd (LangGraph.resolve_resource_name env i) = [(c, 10%Z)] ->
    LangGraph.subprocess_run env c 10 = LangGraph.Completed 0 so se ->
    (exists pre r post, LangGraph.resource_names_of so = (pre ++ r :: post)%list /\
       contains (lower s) (lower r) = true /\
       (forall x, In x pre -> contains (lower s) (lower x) = false) /\
       fst (LangGraph.resolve_resource_name env i) = Ok (JStr r)) \/
    ((forall x, In x (LangGraph.resource_names_of so) -> contains (lower s) (lower x) = false) /\
     fst (LangGraph.resolve_resource_name env i) = Ok (JStr s))).
Proof. split; [exact k8s_select_match_precedence | exact lg_resolve_first_match]. Qed.

Lemma select_match_precedence_witness :
  (forall n, In n ["xbe"; "be-api"; "be-a"] -> lower n <> "be") /\
  (exists n, In n ["xbe"; "be-api"; "be-a"] /\ startswith "be" (lower n) = true) /\
  (exists b o, K8sAssistant.select_match ["xbe"; "be-api"; "be-a"] "be" = K8sAssistant.Best b o /\
    picks (fun n => startswith "be" (lower n)) ["xbe"; "be-api"; "be-a"] b o) /\
  ((exists pre r post,
      LangGraph.resource_names_of "pod/mybackend
pod/backend" = (pre ++ r :: post)%list /\
      contains (lower "backend") (lower r) = true /\
      (forall x, In x pre -> contains (lower "backend") (lower x) = false) /\
      fst (LangGraph.resolve_resource_name lg_env_two_names (lg_intent "pods" "get" (JStr "backend")))
        = Ok (JStr r)) \/
   ((forall x, In x (LangGraph.resource_names_of "pod/mybackend
pod/backend") ->
       contains (lower "backend") (lower x) = false) /\
    fst (LangGraph.resolve_resource_name lg_env_two_names (lg_intent "pods" "get" (JStr "backend")))
      = Ok (JStr "backend"))).
Proof.
  assert (H1 : forall n, In n ["xbe"; "be-api"; "be-a"] -> lower n <> "be").
  { intros n [<-|[<-|[<-|[]]]]; intros Heq; vm_compute in Heq; discriminate Heq. }
  assert (H2 : exists n, In n ["xbe"; "be-api"; "be-a"] /\ startswith "be" (lower n) = true).
  { exists "be-a". split; [simpl; auto | reflexivity]. }
  split; [exact H1|]. split; [exact H2|]. split.
  - exact (proj1 (proj2 (proj1 select_match_precedence ["xbe"; "be-api"; "be-a"] "be")) H1 H2).
  - apply (proj2 select_match_precedence lg_env_two_names
             (lg_intent "pods" "get" (JStr "backend")) "backend"
             ["kubectl"; "get"; "pods"; "-o"; "name"] "pod/mybackend
pod/backend" "");
      [reflexivity | vm_compute; reflexivity | reflexivity].
Defined.

(** C6 fails for the resolver of the LangGraph assistant: when [kubectl]
    lists [mybackend] before [backend], the partial name [backend] resolves to
    [mybackend], though [backend] matches exactly.  The resolver of
    [K8sAssistant] picks [backend] on the same names. *)
Lemma resolve_first_substring_not_exact :
  fst (LangGraph.resolve_resource_name lg_env_two_names (lg_intent "pods" "get" (JStr "backend")))
    = Ok (JStr "mybackend") /\
  K8sAssistant.select_match ["mybackend"; "backend"] "backend" = K8sAssistant.Exact "backend".
Proof. vm_compute. split; reflexivity. Qed.

Lemma k8s_resolution_skip_iff (env : K8sAssistant.Env) (intent : jdict) (s : string)
  (rt : jval) (c : K8sAssistant.api_call) :
  jget "resource_name" intent = Some (JStr s) -> s <> "" ->
  jget "resource_type" intent = Some rt ->
  K8sAssistant.listing_call rt (jget_or "namespace" (JStr "default") intent) = Some c ->
  (snd (K8sAssistant.resolve_resource_names env intent) = [] <->
   K8sAssistant.clearly_full s = true) /\
  (K8sAssistant.clearly_full s = true ->
   K8sAssistant.resolve_resource_names env intent = (Ok intent, [])) /\
  (K8sAssistant.clearly_full s = false ->
   snd (K8sAssistant.resolve_resource_names env intent) = [c]).
Proof.
  intros Hn Hs Ht Hc.
  assert (Hrn : jget_or "resource_name" JNull intent = JStr s)
    by (unfold jget_or; rewrite Hn; reflexivity).
  assert (He : String.eqb s "" = false) by (apply String.eqb_neq; exact Hs).
  unfold K8sAssistant.resolve_resource_names. cbv zeta. rewrite Hrn.
  unfold truthy. rewrite He. cbn [negb]. cbn beta iota.
  rewrite Ht, clearly_full_lower.
  destruct (K8sAssistant.clearly_full s).
  - split; [split; reflexivity|]. split; [reflexivity | discriminate].
  - rewrite Hc. simpl. split; [split; discriminate|]. split; [discriminate | reflexivity].
Qed.

Lemma lg_resolution_skip_iff (env : LangGraph.Env) (i : LangGraph.K8sIntent) (s rt : string) :
  LangGraph.resource_name i = JStr s -> s <> "" ->
  LangGraph.resource_type i = JStr rt ->
  (LangGraph.namespace i = JNull \/ exists ns, LangGraph.namespace i = JStr ns) ->
  (snd (LangGraph.resolve_resource_name env i) = [] <-> (20 < String.length s)%nat) /\
  ((20 < String.length s)%nat -> LangGraph.resolve_resource_name env i = (Ok (JStr s), [])).
Proof.
  intros Hn Hs Ht Hns.
  assert (He : String.eqb s "" = false) by (apply String.eqb_neq; exact Hs).
  unfold LangGraph.resolve_resource_name. cbv zeta. rewrite Hn.
  cbn [truthy LangGraph.py_len]. rewrite He. cbn [negb]. cbn beta iota.
  destruct (Nat.ltb_spec 20 (String.length s)) as [Hlt|Hge].
  - split; [split; auto|]. auto.
  - rewrite Ht. destruct Hns as [Hns|[ns Hns]]; rewrite Hns;
      [|destruct (truthy (JStr ns))]; simpl;
      (split; [split; [discriminate | intros; lia]|]; intros; lia).
Qed.

(** C7 (as amended): for [K8sAssistant], when the intent carries a non-empty
    resource name and a resource type that has a listing call, resolution is
    skipped (no API call, intent unchanged) exactly when the name is clearly
    full, i.e. longer than 20 characters with at least 3 hyphens; otherwise
    the listing call is made.  For the LangGraph assistant (string type, a
    namespace that is null or a string), resolution is skipped, with the name
    unchanged, exactly when the name is longer than 20 characters, whatever
    its hyphens. *)
Theorem resolution_skip_condition :
  (forall (env : K8sAssistant.Env) (intent : jdict) (s : string) (rt : jval)
          (c : K8sAssistant.api_call),
    jget "resource_name" intent = Some (JStr s) -> s <> "" ->
    jget "resource_type" intent = Some rt ->
    K8sAssistant.listing_call rt (jget_or "namespace" (JStr "default") intent) = Some c ->
    (snd (K8sAssistant.resolve_resource_names env intent) = [] <->
     K8sAssistant.clearly_full s = true) /\
    (K8sAssistant.clearly_full s = true ->
     K8sAssistant.resolve_resource_names env intent = (Ok intent, [])) /\
    (K8sAssistant.clearly_full s = false ->
     snd (K8sAssistant.resolve_resource_names env intent) = [c])) /\
  (forall (env : LangGraph.Env) (i : LangGraph.K8sIntent) (s rt : string),
    LangGraph.resource_name i = JStr s -> s <> "" ->
    LangGraph.resource_type i = JStr rt ->
    (LangGraph.namespace i = JNull \/ exists ns, LangGraph.namespace i = JStr ns) ->
    (snd (LangGraph.resolve_resource_name env i) = [] <-> (20 < String.length s)%nat) /\
    ((20 < String.length s)%nat -> LangGraph.resolve_resource_name env i = (Ok (JStr s), []))).
Proof. split; [exact k8s_resolution_skip_iff | exact lg_resolution_skip_iff]. Qed.

Lemma resolution_skip_condition_witness :
  (snd (K8sAssistant.resolve_resource_names k8s_env_ok
          [("resource_type", JStr "pods"); ("resource_name", JStr "web")]) = [] <->
   K8sAssistant.clearly_full "web" = true) /\
  (snd (LangGraph.resolve_resource_name lg_env_ok
          (LangGraph.mkIntent (JStr "pods") (JStr "get") (JStr "web") (JStr "prod") (JList [])))
     = [] <-> (20 < String.length "web")%nat).
Proof.
  split.
  - refine (proj1 (proj1 resolution_skip_condition k8s_env_ok
             [("resource_type", JStr "pods"); ("resource_name", JStr "web")] "web"
             (JStr "pods") (K8sAssistant.ListNames "pods" (Some (JStr "default"))) _ _ _ _));
      [reflexivity | discriminate | reflexivity | reflexivity].
  - refine (proj1 (proj2 resolution_skip_condition lg_env_ok
             (LangGraph.mkIntent (JStr "pods") (JStr "get") (JStr "web") (JStr "prod") (JList []))
             "web" "pods" _ _ _ _));
      [reflexivity | discriminate | reflexivity | right; eexists; reflexivity].
Defined.

(** C7 fails for the LangGraph assistant: a 21-character name without any
    hyphen is not clearly full, yet its resolution is skipped and no
    [kubectl get ... -o name] call is made. *)
Lemma long_plain_name_not_resolved :
  K8sAssistant.clearly_full "abcdefghijklmnopqrstu" = false /\
  LangGraph.resolve_resource_name lg_env_two_names
    (lg_intent "pods" "get" (JStr "abcdefghijklmnopqrstu"))
    = (Ok (JStr "abcdefghijklmnopqrstu"), []).
Proof. vm_compute. split; reflexivity. Qed.

Lemma k8s_logs_preconditions (env : K8sAssistant.Env) (intent : jdict) (a rt : jval) :
  jget "action" intent = Some a -> jeq_str a "logs" = true ->
  jget "resource_type" intent = Some rt ->
  (truthy (jget_or "resource_name" JNull intent) = false \/ jeq_str rt "pods" = false) ->
  snd (K8sAssistant.execute_kubectl env intent) = [] /\
  startswith "Error: " (fst (K8sAssistant.execute_kubectl env intent)) = true.
Proof.
  intros Ha Hl Ht Hpre.
  unfold K8sAssistant.execute_kubectl. rewrite Ha, Ht. cbv zeta. rewrite Hl.
  destruct Hpre as [Hn|Hp].
  - rewrite Hn. split; reflexivity.
  - rewrite Hp. destruct (truthy (jget_or "resource_name" JNull intent)); split; reflexivity.
Qed.

Lemma lg_logs_without_name (env : LangGraph.Env) (st : LangGraph.K8sState) (i : LangGraph.K8sIntent) :
  LangGraph.intent st = Some i -> jeq_str (LangGraph.action i) "logs" = true ->
  truthy (LangGraph.resource_name i) = false ->
  LangGraph.execute_kubectl_node env st
    = (LangGraph.execution_failed "Resource name required for logs" st, []).
Proof.
  intros Hi Hl Hn. unfold LangGraph.execute_kubectl_node, LangGraph.build_kubectl_command.
  rewrite Hi, Hl, Hn. reflexivity.
Qed.

Lemma as_strings_map_f {A} (f : A -> string) (l : list A) :
  as_strings (map (fun x => JStr (f x)) l) = Some (map f l).
Proof. induction l as [|x l IH]; [reflexivity | simpl; rewrite IH; reflexivity]. Qed.

Lemma lg_logs_named_runs (env : LangGraph.Env) (st : LangGraph.K8sState)
  (i : LangGraph.K8sIntent) (n : string) :
  LangGraph.intent st = Some i -> jeq_str (LangGraph.action i) "logs" = true ->
  LangGraph.resource_name i = JStr n -> n <> "" ->
  (LangGraph.namespace i = JNull \/ exists ns, LangGraph.namespace i = JStr ns) ->
  ((exists fl, LangGraph.additional_flags i = JList fl) \/
   (exists fs, LangGraph.additional_flags i = JStr fs)) ->
  exists rest, snd (LangGraph.execute_kubectl_node env st)
    = [("kubectl" :: "logs" :: n :: rest, 30%Z)].
Proof.
  intros Hi Hl Hn Hne Hns Hf.
  assert (He : String.eqb n "" = false) by (apply String.eqb_neq; exact Hne).
  unfold LangGraph.execute_kubectl_node, LangGraph.build_kubectl_command.
  rewrite Hi, Hl, Hn. cbn [truthy]. rewrite He. cbn [negb].
  destruct Hns as [Hns|[ns Hns]]; rewrite Hns; [|destruct (truthy (JStr ns))];
    (destruct Hf as [[fl Hf]|[fs Hf]]; rewrite Hf; simpl;
     rewrite ?as_strings_map, ?as_strings_map_f; simpl; eexists; reflexivity).
Qed.

(** C8 (as amended): in [K8sAssistant], a [logs] intent without a resource
    name or whose type is not [pods] gives a local ["Error: ..."] text
    without any API call.  In the LangGraph assistant, a [logs] intent without
    a resource name fails before any subprocess call, with the error
    ["Command execution failed: Resource name required for logs"].  That is
    the only local refusal: the resource type is not checked, and a [logs]
    intent with a non-empty name (a namespace that is null or a string, flags
    that are a list or a string) runs [kubectl logs <name> ...] whatever its
    resource type. *)
Theorem logs_preconditions_local :
  (forall (env : K8sAssistant.Env) (intent : jdict) (a rt : jval),
    jget "action" intent = Some a -> jeq_str a "logs" = true ->
    jget "resource_type" intent = Some rt ->
    (truthy (jget_or "resource_name" JNull intent) = false \/ jeq_str rt "pods" = false) ->
    snd (K8sAssistant.execute_kubectl env intent) = [] /\
    startswith "Error: " (fst (K8sAssistant.execute_kubectl env intent)) = true) /\
  (forall (env : LangGraph.Env) (st : LangGraph.K8sState) (i : LangGraph.K8sIntent),
    LangGraph.intent st = Some i -> jeq_str (LangGraph.action i) "logs" = true ->
    truthy (LangGraph.resource_name i) = false ->
    LangGraph.execute_kubectl_node env st
      = (LangGraph.execution_failed "Resource name required for logs" st, [])) /\
  (forall (env : LangGraph.Env) (st : LangGraph.K8sState) (i : LangGraph.K8sIntent) (n : string),
    LangGraph.intent st = Some i -> jeq_str (LangGraph.action i) "logs" = true ->
    LangGraph.resource_name i = JStr n -> n <> "" ->
    (LangGraph.namespace i = JNull \/ exists ns, LangGraph.namespace i = JStr ns) ->
    ((exists fl, LangGraph.additional_flags i = JList fl) \/
     (exists fs, LangGraph.additional_flags i = JStr fs)) ->
    exists rest, snd (LangGraph.execute_kubectl_node env st)
      = [("kubectl" :: "logs" :: n :: rest, 30%Z)]).
Proof.
  split; [exact k8s_logs_preconditions|].
  split; [exact lg_logs_without_name | exact lg_logs_named_runs].
Qed.

Lemma logs_preconditions_local_witness :
  snd (K8sAssistant.execute_kubectl k8s_env_ok
         [("resource_type", JStr "services"); ("action", JStr "logs");
          ("resource_name", JStr "web")]) = [] /\
  LangGraph.execute_kubectl_node lg_env_ok (lg_state_with (lg_intent "pods" "logs" JNull))
    = (LangGraph.execution_failed "Resource name required for logs"
         (lg_state_with (lg_intent "pods" "logs" JNull)), []) /\
  exists rest, snd (LangGraph.execute_kubectl_node lg_env_ok
                     (lg_state_with (lg_intent "services" "logs" (JStr "web"))))
    = [("kubectl" :: "logs" :: "web" :: rest, 30%Z)].
Proof.
  split; [|split].
  - apply (proj1 logs_preconditions_local k8s_env_ok
             [("resource_type", JStr "services"); ("action", JStr "logs");
              ("resource_name", JStr "web")] (JStr "logs") (JStr "services"));
      [reflexivity | reflexivity | reflexivity | right; reflexivity].
  - apply (proj1 (proj2 logs_preconditions_local) lg_env_ok
             (lg_state_with (lg_intent "pods" "logs" JNull)) (lg_intent "pods" "logs" JNull));
      reflexivity.
  - apply (proj2 (proj2 logs_preconditions_local) lg_env_ok
             (lg_state_with (lg_intent "services" "logs" (JStr "web")))
             (lg_intent "services" "logs" (JStr "web")) "web");
      [reflexivity | reflexivity | reflexivity | discriminate
      | left; reflexivity | left; eexists; reflexivity].
Defined.

(** C8 fails for the LangGraph assistant: a [logs] intent on [services] with a
    name is not refused locally; [kubectl logs web] is run. *)
Lemma logs_on_service_runs_kubectl :
  snd (LangGraph.execute_kubectl_node lg_env_ok
         (lg_state_with (lg_intent "services" "logs" (JStr "web"))))
    = [(["kubectl"; "logs"; "web"], 30%Z)].
Proof. vm_compute. reflexivity. Qed.

(** C9 (as amended): in [K8sAssistant], a valid [logs] intent makes exactly one
    API call, [read_namespaced_pod_log] with [tail_lines=100], and returns its
    text as is.  In the LangGraph assistant, the [logs] command is
    [kubectl logs <name>] followed only by [-n <namespace>] when a namespace
    is set and by the intent's additional flags: it adds no tail limit of its
    own.  Whenever the command run by the execution node exits with code 0,
    the node keeps the whole stripped output. *)
Theorem logs_tail_by_backend :
  (forall (env : K8sAssistant.Env) (intent : jdict) (a rt : jval),
    jget "action" intent = Some a -> jeq_str a "logs" = true ->
    jget "resource_type" intent = Some rt -> jeq_str rt "pods" = true ->
    truthy (jget_or "resource_name" JNull intent) = true ->
    K8sAssistant.execute_kubectl env intent =
      K8sAssistant.api_step env
        (K8sAssistant.ReadPodLog (jget_or "resource_name" JNull intent)
           (jget_or "namespace" (JStr "default") intent) 100) "Error retrieving logs") /\
  (forall i : LangGraph.K8sIntent,
    jeq_str (LangGraph.action i) "logs" = true -> truthy (LangGraph.resource_name i) = true ->
    (forall fl, LangGraph.additional_flags i = JList fl ->
      LangGraph.build_kubectl_command i
        = Ok ([JStr "kubectl"; JStr "logs"; LangGraph.resource_name i]
              ++ (if truthy (LangGraph.namespace i)
                  then [JStr "-n"; LangGraph.namespace i] else [])
              ++ map JStr fl)%list) /\
    (forall fs, LangGraph.additional_flags i = JStr fs ->
      LangGraph.build_kubectl_command i
        = Ok ([JStr "kubectl"; JStr "logs"; LangGraph.resource_name i]
              ++ (if truthy (LangGraph.namespace i)
                  then [JStr "-n"; LangGraph.namespace i] else [])
              ++ map (fun c => JStr (String c EmptyString)) (list_ascii_of_string fs))%list)) /\
  (forall (env : LangGraph.Env) (st : LangGraph.K8sState) (c : list string) (so se : string),
    In (c, 30%Z) (snd (LangGraph.execute_kubectl_node env st)) ->
    LangGraph.subprocess_run env c 30 = LangGraph.Completed 0 so se ->
    LangGraph.kubectl_output (fst (LangGraph.execute_kubectl_node env st)) = strip so).
Proof.
  split; [|split].
  - intros env intent a rt Ha Hl Ht Hp Hn.
    unfold K8sAssistant.execute_kubectl. rewrite Ha, Ht. cbv zeta. rewrite Hl, Hn, Hp.
    reflexivity.
  - intros i Hl Hn. unfold LangGraph.build_kubectl_command.
    rewrite Hl, Hn. split; intros f Hf; rewrite Hf; reflexivity.
  - intros env st c so se. unfold LangGraph.execute_kubectl_node.
    destruct (LangGraph.intent st) as [i|]; [|intros []].
    destruct (LangGraph.build_kubectl_command i) as [cmd|k m]; [|intros []].
    destruct (as_strings cmd) as [c'|]; [|intros []].
    simpl. intros [E|[]] Hr. injection E as ->. rewrite Hr. reflexivity.
Qed.

Lemma logs_tail_by_backend_witness :
  K8sAssistant.execute_kubectl k8s_env_ok
    [("resource_type", JStr "pods"); ("action", JStr "logs"); ("resource_name", JStr "web")] =
  K8sAssistant.api_step k8s_env_ok
    (K8sAssistant.ReadPodLog (JStr "web") (JStr "default") 100) "Error retrieving logs" /\
  LangGraph.build_kubectl_command
    (LangGraph.mkIntent (JStr "pods") (JStr "logs") (JStr "web") (JStr "prod") (JList ["-c"; "app"]))
    = Ok ([JStr "kubectl"; JStr "logs"; JStr "web"]
          ++ (if truthy (JStr "prod") then [JStr "-n"; JStr "prod"] else [])
          ++ map JStr ["-c"; "app"])%list /\
  LangGraph.kubectl_output (fst (LangGraph.execute_kubectl_node lg_env_long_logs
    (lg_state_with (lg_intent "pods" "logs" (JStr "web"))))) = strip (log_lines 150).
Proof.
  split; [|split].
  - apply (proj1 logs_tail_by_backend k8s_env_ok
             [("resource_type", JStr "pods"); ("action", JStr "logs");
              ("resource_name", JStr "web")] (JStr "logs") (JStr "pods"));
      reflexivity.
  - apply (proj1 (proj1 (proj2 logs_tail_by_backend)
      (LangGraph.mkIntent (JStr "pods") (JStr "logs") (JStr "web") (JStr "prod")
         (JList ["-c"; "app"])) eq_refl eq_refl) ["-c"; "app"] eq_refl).
  - apply (proj2 (proj2 logs_tail_by_backend) lg_env_long_logs
             (lg_state_with (lg_intent "pods" "logs" (JStr "web")))
             ["kubectl"; "logs"; "web"] (log_lines 150) "");
      [vm_compute; left; reflexivity | reflexivity].
Defined.

(** C9 fails for the LangGraph assistant: when [kubectl logs web] prints 150
    lines, the output kept for the response has 150 lines. *)
Lemma logs_not_capped_cli :
  line_count (LangGraph.kubectl_output (fst (LangGraph.execute_kubectl_node lg_env_long_logs
                (lg_state_with (lg_intent "pods" "logs" (JStr "web")))))) = 150%nat.
Proof. vm_compute. reflexivity. Qed.

(** C10: [process_query] of the LangGraph assistant, the assistant the router
    builds, returns, for every behaviour of the LLM and of [kubectl], a
    response carrying the original query and a success flag; whatever
    exception the graph engine raises is turned into a [success=false]
    response with an ["Internal error: ..."] message and a suggestion.
    ([K8sAssistant] is never served: its constructor refers to routing
    methods the class does not define, so it raises before any query.) *)
Theorem process_query_never_raises :
  (forall (env : LangGraph.Env) (q : string), r_query (LangGraph.process_query env q) = q) /\
  (forall (ainvoke : LangGraph.K8sState -> pyres LangGraph.K8sState) (q : string)
          (k : exn_kind) (m : string),
    ainvoke (LangGraph.initial_state q) = Exc k m ->
    LangGraph.process_query_with ainvoke q =
      mkResponse q None None None (Some ("Internal error: " ++ m))
        (Some (Some "Please try rephrasing your query or contact support.")) false).
Proof.
  split.
  - intros env q. unfold LangGraph.process_query, LangGraph.process_query_with.
    pose proof (workflow_query env (LangGraph.initial_state q)) as Hq.
    destruct (LangGraph.workflow env (LangGraph.initial_state q)) as [[n s] c].
    simpl in Hq |- *. unfold LangGraph.format_response.
    destruct (LangGraph.err_truthy (LangGraph.error s)); exact Hq.
  - intros ainvoke q k m H. unfold LangGraph.process_query_with. rewrite H. reflexivity.
Qed.

Lemma process_query_never_raises_witness :
  LangGraph.process_query_with (fun _ => Exc OtherException "boom") "list pods" =
    mkResponse "list pods" None None None (Some ("Internal error: " ++ "boom"))
      (Some (Some "Please try rephrasing your query or contact support.")) false.
Proof.
  apply (proj2 process_query_never_raises (fun _ => Exc OtherException "boom")
           "list pods" OtherException "boom").
  reflexivity.
Defined.

End PipelineFacts.

(** ** Further properties of both assistants *)

(** *** Dict lemmas *)

Lemma jget_jset_same (k : string) (v : jval) (d : jdict) : jget k (jset k v d) = Some v.
Proof.
  induction d as [|[k' v'] d IH]; simpl.
  - rewrite String.eqb_refl. reflexivity.
  - destruct (String.eqb_spec k k') as [->|Hne]; simpl.
    + rewrite String.eqb_refl. reflexivity.
    + apply String.eqb_neq in Hne. rewrite Hne. exact IH.
Qed.

Lemma jget_jset_other (k k' : string) (v : jval) (d : jdict) :
  k <> k' -> jget k (jset k' v d) = jget k d.
Proof.
  intros Hne. apply String.eqb_neq in Hne.
  induction d as [|[k0 v0] d IH]; simpl.
  - rewrite Hne. reflexivity.
  - destruct (String.eqb_spec k' k0) as [->|Hne']; simpl.
    + rewrite Hne. reflexivity.
    + destruct (String.eqb k k0); [reflexivity | exact IH].
Qed.

Lemma jget_app (k : string) (d e : jdict) :
  jget k (d ++ e)%list = match jget k d with Some v => Some v | None => jget k e end.
Proof.
  induction d as [|[k0 v0] d IH]; simpl; [reflexivity|].
  destruct (String.eqb k k0); [reflexivity | exact IH].
Qed.

Lemma jget_setdefault (k k' : string) (v : jval) (d : jdict) :
  jget k (setdefault k' v d) =
  match jget k d with
  | Some x => Some x
  | None => if String.eqb k k' then Some v else None
  end.
Proof.
  unfold setdefault. destruct (jget k' d) eqn:E.
  - destruct (jget k d) eqn:F; [reflexivity|].
    destruct (String.eqb_spec k k') as [->|_]; [congruence | reflexivity].
  - rewrite jget_app. destruct (jget k d); [reflexivity|]. simpl.
    destruct (String.eqb k k'); reflexivity.
Qed.

Lemma defaults_resource_type (d : jdict) :
  jget "resource_type"
    (setdefault "additional_flags" (JList [])
      (setdefault "namespace" JNull
        (setdefault "resource_name" JNull
          (setdefault "action" (JStr "list")
            (setdefault "resource_type" (JStr "pods") d)))))
  = Some (jget_or "resource_type" (JStr "pods") d).
Proof.
  rewrite !jget_setdefault. unfold jget_or. destruct (jget "resource_type" d); reflexivity.
Qed.

Lemma defaults_action (d : jdict) :
  jget "action"
    (setdefault "additional_flags" (JList [])
      (setdefault "namespace" JNull
        (setdefault "resource_name" JNull
          (setdefault "action" (JStr "list")
            (setdefault "resource_type" (JStr "pods") d)))))
  = Some (jget_or "action" (JStr "list") d).
Proof.
  rewrite !jget_setdefault. unfold jget_or. destruct (jget "action" d); reflexivity.
Qed.

Lemma setdefault_adds (k : string) (v : jval) (d : jdict) :
  jget k (setdefault k v d) <> None.
Proof.
  rewrite jget_setdefault. rewrite String.eqb_refl. destruct (jget k d); discriminate.
Qed.

Lemma setdefault_keeps (k k' : string) (v : jval) (d : jdict) :
  jget k d <> None -> jget k (setdefault k' v d) <> None.
Proof.
  intros H. rewrite jget_setdefault. destruct (jget k d); [discriminate | contradiction].
Qed.

Lemma defaults_fields (d : jdict) (k : string) :
  In k LangGraph.intent_fields ->
  jget k
    (setdefault "additional_flags" (JList [])
      (setdefault "namespace" JNull
        (setdefault "resource_name" JNull
          (setdefault "action" (JStr "list")
            (setdefault "resource_type" (JStr "pods") d))))) <> None.
Proof.
  intros Hk.
  simpl in Hk. destruct Hk as [<-|[<-|[<-|[<-|[<-|[]]]]]];
    repeat first [apply setdefault_adds | apply setdefault_keeps].
Qed.

Lemma jget_jset_present (k k' : string) (v : jval) (d : jdict) :
  jget k d <> None -> jget k (jset k' v d) <> None.
Proof.
  intros H. destruct (String.eqb_spec k k') as [->|Hne].
  - rewrite jget_jset_same. discriminate.
  - rewrite jget_jset_other by exact Hne. exact H.
Qed.

Lemma mem_in (x : string) (l : list string) : mem x l = true -> In x l.
Proof.
  unfold mem. intros H. apply existsb_exists in H. destruct H as [y [Hy He]].
  apply String.eqb_eq in He. subst. exact Hy.
Qed.

Lemma in_mem (x : string) (l : list string) : In x l -> mem x l = true.
Proof.
  unfold mem. intros H. apply existsb_exists. exists x. split; [exact H | apply String.eqb_refl].
Qed.

Lemma lg_map_get_supported (s : string) :
  mem (map_get LangGraph.resource_map s "pods") LangGraph.supported_resources = true.
Proof.
  unfold map_get. destruct (find _ LangGraph.resource_map) as [[k v]|] eqn:E; [|reflexivity].
  apply find_some in E. destruct E as [Hin _]. simpl in Hin. simpl.
  repeat destruct Hin as [Hin|Hin]; try contradiction; injection Hin as <- <-; reflexivity.
Qed.

Lemma k8s_map_get_supported (s : string) :
  mem (map_get K8sAssistant.resource_map s "pods") K8sAssistant.supported_resources = true.
Proof.
  unfold map_get. destruct (find _ K8sAssistant.resource_map) as [[k v]|] eqn:E; [|reflexivity].
  apply find_some in E. destruct E as [Hin _]. simpl in Hin. simpl.
  repeat destruct Hin as [Hin|Hin]; try contradiction; injection Hin as <- <-; reflexivity.
Qed.

Lemma jin_str (v : jval) (l : list string) :
  jin v l = true -> exists s, v = JStr s /\ mem s l = true.
Proof. destruct v; simpl; try discriminate. eauto. Qed.

Ltac validate_ok_tac H supported_lemma :=
  let Hrt := fresh "Hrt" in let Hac := fresh "Hac" in let Hf := fresh "Hf" in
  match type of H with
  | context [jget_or "resource_type" JNull ?D] =>
      assert (Hrt : jget "resource_type" D = Some (jget_or "resource_type" (JStr "pods") _))
        by apply defaults_resource_type;
      assert (Hac : jget "action" D = Some (jget_or "action" (JStr "list") _))
        by apply defaults_action;
      assert (Hf : forall k, In k LangGraph.intent_fields -> jget k D <> None)
        by (intros k; apply defaults_fields);
      unfold jget_or in H; rewrite Hrt, Hac in H; cbn iota in H;
      let v := fresh "v" in let a := fresh "a" in
      set (v := jget_or "resource_type" (JStr "pods") _) in *;
      set (a := jget_or "action" (JStr "list") _) in *;
      clearbody v a;
      destruct (jin v _) eqn:R in H; [discriminate|];
      destruct (jin a _) eqn:B in H; [discriminate|];
      destruct (jin v _) eqn:S in H;
      [ injection H as <-;
        destruct (jin_str _ _ S) as (s & -> & Hs);
        split; [eauto|]; split; [eauto|]; exact Hf
      | destruct v as [|b|s|l];
        [ injection H as <- | injection H as <- | injection H as <- | discriminate ];
        (split; [eexists; split; [apply jget_jset_same | try apply supported_lemma; reflexivity]|]);
        (split; [exists a; split; [rewrite jget_jset_other by discriminate; exact Hac | exact B]|]);
        intros k Hk; apply jget_jset_present; apply Hf; exact Hk ]
  end.

Lemma lg_validate_ok_spec (d d' : jdict) :
  LangGraph.validate_intent d = Ok d' ->
  (exists s, jget "resource_type" d' = Some (JStr s) /\
             mem s LangGraph.supported_resources = true) /\
  (exists a, jget "action" d' = Some a /\ jin a LangGraph.banned_actions = false) /\
  (forall k, In k LangGraph.intent_fields -> jget k d' <> None).
Proof.
  intros H. unfold LangGraph.validate_intent in H. cbv zeta in H.
  validate_ok_tac H lg_map_get_supported.
Qed.

Lemma k8s_validate_ok_spec (d d' : jdict) :
  K8sAssistant.validate_intent d = Ok d' ->
  (exists s, jget "resource_type" d' = Some (JStr s) /\
             mem s K8sAssistant.supported_resources = true) /\
  (exists a, jget "action" d' = Some a /\ jin a K8sAssistant.banned_actions = false) /\
  (forall k, In k LangGraph.intent_fields -> jget k d' <> None).
Proof.
  intros H. unfold K8sAssistant.validate_intent in H. cbv zeta in H.
  validate_ok_tac H k8s_map_get_supported.
Qed.

Lemma lg_fallback_parse_supported (q : string) :
  jin (LangGraph.resource_type (LangGraph.fallback_parse q)) LangGraph.supported_resources = true /\
  jin (LangGraph.action (LangGraph.fallback_parse q)) LangGraph.supported_actions = true.
Proof.
  unfold LangGraph.fallback_parse. cbv zeta. cbn [LangGraph.resource_type LangGraph.action].
  repeat match goal with |- context [if ?c then _ else _] => destruct c end;
    split; reflexivity.
Qed.

Lemma supported_not_banned (a : jval) :
  jin a LangGraph.supported_actions = true -> jin a LangGraph.banned_actions = false.
Proof.
  intros H. destruct (jin_str _ _ H) as (s & -> & Hs). apply mem_in in Hs.
  simpl in Hs. destruct Hs as [<-|[<-|[<-|[<-|[]]]]]; reflexivity.
Qed.

Lemma lg_parse_intent_node_spec (env : LangGraph.Env) (st : LangGraph.K8sState) :
  exists i, LangGraph.intent (LangGraph.parse_intent_node env st) = Some i /\
    jin (LangGraph.resource_type i) LangGraph.supported_resources = true /\
    jin (LangGraph.action i) LangGraph.banned_actions = false.
Proof.
  unfold LangGraph.parse_intent_node.
  destruct (LangGraph.parse_with_llm env (LangGraph.query st)) as [d|k m]; simpl.
  2:{ eexists; split; [reflexivity|]. destruct (lg_fallback_parse_supported (LangGraph.query st)).
      split; [assumption | apply supported_not_banned; assumption]. }
  destruct (LangGraph.validate_intent d) as [v|k m] eqn:V; simpl.
  2:{ eexists; split; [reflexivity|]. destruct (lg_fallback_parse_supported (LangGraph.query st)).
      split; [assumption | apply supported_not_banned; assumption]. }
  destruct (LangGraph.K8sIntent_of_dict v) as [i|k m] eqn:K.
  2:{ eexists; split; [reflexivity|]. destruct (lg_fallback_parse_supported (LangGraph.query st)).
      split; [assumption | apply supported_not_banned; assumption]. }
  exists i. split; [reflexivity|].
  destruct (lg_validate_ok_spec d v V) as [(s & Hs & Hsup) [(a & Ha & Hb) _]].
  unfold LangGraph.K8sIntent_of_dict in K.
  destruct (forallb _ v); [|discriminate].
  rewrite Hs, Ha in K. injection K as <-.
  unfold LangGraph.post_init. destruct (jget_or "additional_flags" JNull v); simpl;
    split; assumption.
Qed.

(** *** Subprocess calls of the LangGraph pipeline *)

Lemma as_strings_cons (a : string) (l : list jval) (c : list string) :
  as_strings (JStr a :: l) = Some c -> exists c', c = a :: c' /\ as_strings l = Some c'.
Proof.
  simpl. destruct (as_strings l) as [r|]; [|discriminate]. intros H. injection H as <-. eauto.
Qed.

Lemma build_kubectl_command_head (i : LangGraph.K8sIntent) (cmd : list jval) :
  LangGraph.build_kubectl_command i = Ok cmd -> exists rest, cmd = JStr "kubectl" :: rest.
Proof.
  unfold LangGraph.build_kubectl_command, bind.
  match goal with
  | |- context [match ?x with Ok _ => _ | Exc _ _ => _ end] => destruct x as [a|k m] eqn:Hin
  end; [|discriminate].
  assert (Ha : exists r, a = JStr "kubectl" :: r).
  { revert Hin. repeat LangGraphFacts.case_match; intros Hin; try discriminate;
      injection Hin as <-; eexists; reflexivity. }
  destruct Ha as [r ->]. cbv beta.
  destruct (LangGraph.additional_flags i); intros H; try discriminate;
    injection H as <-; eexists; reflexivity.
Qed.

Lemma resolve_resource_name_shape (env : LangGraph.Env) (i : LangGraph.K8sIntent) :
  (length (snd (LangGraph.resolve_resource_name env i)) <= 1)%nat /\
  forall c t, In (c, t) (snd (LangGraph.resolve_resource_name env i)) ->
    t = 10%Z /\ exists rt rest, c = "kubectl" :: "get" :: rt :: "-o" :: "name" :: rest.
Proof.
  unfold LangGraph.resolve_resource_name.
  destruct (negb (truthy (LangGraph.resource_name i))); [simpl; split; [lia | tauto]|].
  destruct (LangGraph.py_len (LangGraph.resource_name i)) as [n|k m]; [|simpl; split; [lia | tauto]].
  destruct (20 <? n)%nat; [simpl; split; [lia | tauto]|].
  cbv zeta.
  destruct (as_strings _) as [c|] eqn:E; [|simpl; split; [lia | tauto]].
  simpl. split; [lia|]. intros c' t [H|[]]. injection H as <- <-. split; [reflexivity|].
  apply as_strings_cons in E as (c1 & -> & E). apply as_strings_cons in E as (c2 & -> & E).
  revert E. destruct (LangGraph.resource_type i) as [|b|rt|l]; simpl; try discriminate.
  destruct (as_strings _) as [r|]; [|discriminate]. intros E. injection E as <-. eauto.
Qed.

Lemma resolve_resources_node_shape (env : LangGraph.Env) (st : LangGraph.K8sState) :
  (length (snd (LangGraph.resolve_resources_node env st)) <= 1)%nat /\
  forall c t, In (c, t) (snd (LangGraph.resolve_resources_node env st)) ->
    t = 10%Z /\ exists rt rest, c = "kubectl" :: "get" :: rt :: "-o" :: "name" :: rest.
Proof.
  unfold LangGraph.resolve_resources_node.
  destruct (LangGraph.intent st) as [i|]; [|simpl; split; [lia | tauto]].
  destruct (negb (truthy (LangGraph.resource_name i))); [simpl; split; [lia | tauto]|].
  pose proof (resolve_resource_name_shape env i) as Hs.
  destruct (LangGraph.resolve_resource_name env i) as [r calls].
  destruct r; exact Hs.
Qed.

Lemma execute_kubectl_node_shape (env : LangGraph.Env) (st : LangGraph.K8sState) :
  (length (snd (LangGraph.execute_kubectl_node env st)) <= 1)%nat /\
  forall c t, In (c, t) (snd (LangGraph.execute_kubectl_node env st)) ->
    t = 30%Z /\ exists rest, c = "kubectl" :: rest.
Proof.
  unfold LangGraph.execute_kubectl_node.
  destruct (LangGraph.intent st) as [i|]; [|simpl; split; [lia | tauto]].
  destruct (LangGraph.build_kubectl_command i) as [cmd|k m] eqn:B; [|simpl; split; [lia | tauto]].
  destruct (as_strings cmd) as [c|] eqn:E; [|simpl; split; [lia | tauto]].
  simpl. split; [lia|]. intros c' t [H|[]]. injection H as <- <-. split; [reflexivity|].
  destruct (build_kubectl_command_head i cmd B) as [rest ->].
  apply as_strings_cons in E as (c1 & -> & _). eauto.
Qed.

Lemma execute_kubectl_node_clean (env : LangGraph.Env) (st : LangGraph.K8sState) :
  LangGraph.err_truthy (LangGraph.error (fst (LangGraph.execute_kubectl_node env st))) = false ->
  exists c so se, snd (LangGraph.execute_kubectl_node env st) = [(c, 30%Z)] /\
    LangGraph.subprocess_run env c 30 = LangGraph.Completed 0 so se /\
    LangGraph.kubectl_output (fst (LangGraph.execute_kubectl_node env st)) = strip so.
Proof.
  unfold LangGraph.execute_kubectl_node.
  destruct (LangGraph.intent st) as [i|]; [|simpl; discriminate].
  destruct (LangGraph.build_kubectl_command i) as [cmd|k m]; [|simpl; discriminate].
  destruct (as_strings cmd) as [c|]; [|simpl; discriminate].
  destruct (LangGraph.subprocess_run env c 30) as [rc so se| |k m] eqn:R; simpl.
  - destruct (Z.eqb_spec rc 0) as [->|_]; simpl; [|discriminate].
    intros _. exists c, so, se. auto.
  - discriminate.
  - discriminate.
Qed.

Lemma enhance_response_node_keeps (env : LangGraph.Env) (st : LangGraph.K8sState) :
  LangGraph.error (LangGraph.enhance_response_node env st) = LangGraph.error st /\
  LangGraph.kubectl_output (LangGraph.enhance_response_node env st) = LangGraph.kubectl_output st.
Proof. unfold LangGraph.enhance_response_node. repeat LangGraphFacts.case_match; auto. Qed.

Lemma error_handler_node_truthy (st : LangGraph.K8sState) :
  LangGraph.err_truthy (LangGraph.error (LangGraph.error_handler_node st)) = true.
Proof.
  unfold LangGraph.error_handler_node. destruct (LangGraph.err_truthy (LangGraph.error st)) eqn:E;
    [exact E | reflexivity].
Qed.

(** *** Resolution lemmas *)

Lemma in_match_nil {A} (l r : list A) (x : A) :
  In x (match l with [] => r | _ => l end) -> In x l \/ In x r.
Proof. destruct l; simpl; auto. Qed.

Lemma select_match_in (names : list string) (p : string) :
  (forall n, K8sAssistant.select_match names p = K8sAssistant.Exact n -> In n names) /\
  (forall b o, K8sAssistant.select_match names p = K8sAssistant.Best b o -> In b names).
Proof.
  unfold K8sAssistant.select_match.
  destruct (find _ names) as [n|] eqn:F.
  - apply find_some_spec in F as [Fin _].
    split; [intros n' H; inversion H; subst; exact Fin | intros b o H; discriminate H].
  - match goal with
    | |- context [match ?M with [] => K8sAssistant.NoMatch | _ :: _ => _ end] =>
        assert (HM : forall x, In x M -> In x names); [|destruct M as [|m ms]]
    end.
    + intros x Hx.
      apply in_match_nil in Hx as [Hx|Hx]; [apply in_match_nil in Hx as [Hx|Hx]|];
        apply filter_In in Hx; tauto.
    + split; [intros n H; discriminate H | intros b o H; discriminate H].
    + split; [intros n H; discriminate H|].
      intros b o H. inversion H; subst.
      apply HM. apply (min_by_len_spec m ms).
Qed.

(** *** String and dict lemmas for the parse node *)

Lemma startswith_app_l (p s t : string) :
  startswith p s = true -> startswith p (s ++ t) = true.
Proof.
  revert s. induction p as [|a p IH]; intros s H; [reflexivity|].
  destruct s as [|b s]; [discriminate H|].
  simpl in *. apply andb_true_iff in H as [H1 H2]. rewrite H1, (IH s H2). reflexivity.
Qed.

Lemma contains_app_l (p s t : string) :
  contains p s = true -> contains p (s ++ t) = true.
Proof.
  induction s as [|a s IH]; intros H.
  - destruct p; [destruct t; reflexivity | discriminate H].
  - change (String a s ++ t) with (String a (s ++ t)).
    simpl in H |- *. apply orb_true_iff in H as [H|H].
    + apply orb_true_iff. left. exact (startswith_app_l p (String a s) t H).
    + apply orb_true_iff. right. exact (IH H).
Qed.

Lemma jget_or_some (k : string) (dflt v : jval) (d : jdict) :
  jget k d = Some v -> jget_or k dflt d = v.
Proof. unfold jget_or. intros ->. reflexivity. Qed.

Lemma k8s_validate_restricted (d : jdict) (r : string) :
  jget_or "resource_type" (JStr "pods") d = JStr r ->
  In r K8sAssistant.restricted_resource_types ->
  K8sAssistant.validate_intent d = Exc ValueError (K8sAssistant.access_denied r).
Proof.
  intros Hr Hin. unfold K8sAssistant.validate_intent. cbv zeta.
  rewrite (jget_or_some _ _ _ _ (defaults_resource_type d)), Hr.
  cbn [jin]. rewrite (in_mem _ _ Hin). reflexivity.
Qed.

Lemma k8s_validate_banned (d : jdict) (a : string) :
  jin (jget_or "resource_type" (JStr "pods") d) K8sAssistant.restricted_resource_types = false ->
  jget_or "action" (JStr "list") d = JStr a ->
  In a K8sAssistant.banned_actions ->
  K8sAssistant.validate_intent d = Exc ValueError (K8sAssistant.security_warning a).
Proof.
  intros Hr Ha Hin. unfold K8sAssistant.validate_intent. cbv zeta.
  rewrite (jget_or_some _ _ _ _ (defaults_resource_type d)), Hr.
  rewrite (jget_or_some _ _ _ _ (defaults_action d)), Ha.
  cbn [jin]. rewrite (in_mem _ _ Hin). reflexivity.
Qed.

Lemma k8s_parse_intent_node_refused (env : K8sAssistant.Env) (st : K8sAssistant.K8sState)
  (d : jdict) (m : string) :
  K8sAssistant.parse_with_llm env (K8sAssistant.query st) = Ok d ->
  K8sAssistant.validate_intent d = Exc ValueError m ->
  contains "Access Denied" m || contains "Security Warning" m = true ->
  String.eqb m "" = false ->
  K8sAssistant.error (K8sAssistant.parse_intent_node env st) = JStr m /\
  K8sAssistant.parsed_intent (K8sAssistant.parse_intent_node env st) =
    K8sAssistant.parsed_intent st.
Proof.
  intros Hl Hv Hc Hne.
  unfold K8sAssistant.parse_intent_node, K8sAssistant.parse_intent.
  rewrite Hl. simpl bind. rewrite Hv, Hc.
  cbn [jget_or jget String.eqb Ascii.eqb Bool.eqb andb truthy]. rewrite Hne.
  split; reflexivity.
Qed.

(** *** Reply extraction and LLM-driven commands *)

Lemma last_close_prefix_some (l p : list ascii) :
  LangGraph.last_close_prefix l = Some p ->
  exists body post, p = (body ++ ["}"%char])%list /\ l = (p ++ post)%list /\ ~ In "}"%char post.
Proof.
  revert p. induction l as [|c l IH]; intros p H; [discriminate H|].
  simpl in H. destruct (LangGraph.last_close_prefix l) as [p'|] eqn:E.
  - injection H as <-. destruct (IH p' eq_refl) as (body & post & -> & -> & Hp).
    exists (c :: body), post. simpl. auto.
  - destruct (Ascii.eqb_spec c "}") as [->|]; [|discriminate H].
    injection H as <-. exists [], l. split; [reflexivity|]. split; [reflexivity|].
    intros Hin. clear IH.
    induction l as [|c' l IHl]; [exact Hin|].
    simpl in E. destruct (LangGraph.last_close_prefix l); [discriminate E|].
    destruct (Ascii.eqb_spec c' "}") as [->|Hc]; [discriminate E|].
    destruct Hin as [->|Hin]; [apply Hc; reflexivity|]. exact (IHl eq_refl Hin).
Qed.

Lemma last_close_prefix_none (l : list ascii) :
  LangGraph.last_close_prefix l = None -> ~ In "}"%char l.
Proof.
  induction l as [|c l IH]; intros H Hin; [exact Hin|].
  simpl in H. destruct (LangGraph.last_close_prefix l); [discriminate H|].
  destruct (Ascii.eqb_spec c "}") as [->|Hc]; [discriminate H|].
  destruct Hin as [->|Hin]; [apply Hc; reflexivity|]. exact (IH eq_refl Hin).
Qed.

Lemma brace_search_some (l m : list ascii) :
  LangGraph.brace_search l = Some m ->
  exists pre body post, m = ("{"%char :: body ++ ["}"%char])%list /\ l = (pre ++ m ++ post)%list /\
    ~ In "{"%char pre /\ ~ In "}"%char post.
Proof.
  revert m. induction l as [|c l IH]; intros m H; [discriminate H|].
  simpl in H. destruct (Ascii.eqb_spec c "{") as [->|Hc].
  - destruct (LangGraph.last_close_prefix l) as [p|] eqn:E.
    + injection H as <-. destruct (last_close_prefix_some l p E) as (body & post & -> & -> & Hp).
      exists [], body, post. simpl. auto.
    + exfalso. destruct (IH m H) as (pre & body & post & -> & -> & _).
      apply (last_close_prefix_none _ E). apply in_or_app. right. apply in_or_app. left.
      right. apply in_or_app. right. left. reflexivity.
  - destruct (IH m H) as (pre & body & post & -> & -> & Hpre & Hpost).
    exists (c :: pre), body, post. split; [reflexivity|]. split; [reflexivity|].
    split; [|exact Hpost]. intros [Heq|Hin]; [apply Hc; exact Heq | exact (Hpre Hin)].
Qed.

Lemma brace_search_none (l : list ascii) :
  LangGraph.brace_search l = None ->
  forall pre post, l = (pre ++ "{"%char :: post)%list -> ~ In "}"%char post.
Proof.
  induction l as [|c l IH]; intros H pre post E.
  - destruct pre; discriminate E.
  - simpl in H. destruct pre as [|c' pre].
    + injection E as -> <-. rewrite Ascii.eqb_refl in H.
      destruct (LangGraph.last_close_prefix l) eqn:F; [discriminate H|].
      exact (last_close_prefix_none _ F).
    + injection E as -> E.
      assert (H' : LangGraph.brace_search l = None)
        by (destruct (Ascii.eqb c' "{"); [destruct (LangGraph.last_close_prefix l)|];
            [discriminate H | exact H | exact H]).
      exact (IH H' pre post E).
Qed.

Lemma lg_flags_validate (rt a : string) (fl : list string) :
  In rt LangGraph.supported_resources -> ~ In a LangGraph.banned_actions ->
  LangGraph.validate_intent
    [("resource_type", JStr rt); ("action", JStr a); ("additional_flags", JList fl)] =
  Ok [("resource_type", JStr rt); ("action", JStr a); ("additional_flags", JList fl);
      ("resource_name", JNull); ("namespace", JNull)].
Proof.
  intros Hrt Hb.
  assert (Hr : mem rt LangGraph.restricted_resources = false).
  { destruct (mem rt LangGraph.restricted_resources) eqn:M; [|reflexivity].
    apply mem_in in M. exfalso.
    destruct M as [<-|[<-|[<-|[]]]]; vm_compute in Hrt; intuition discriminate. }
  assert (Hb' : mem a LangGraph.banned_actions = false).
  { destruct (mem a LangGraph.banned_actions) eqn:M; [|reflexivity].
    exfalso. exact (Hb (mem_in _ _ M)). }
  unfold LangGraph.validate_intent. cbv zeta.
  unfold setdefault at 5. cbn -[mem]. 
  rewrite Hr, Hb', (in_mem _ _ Hrt). reflexivity.
Qed.

Module ExtraFacts.
Import Samples.

(** X1: a dict accepted by [K8sLangGraphAssistant._validate_intent] has all
    five intent keys, a resource type from [supported_resources] (an unknown
    type is mapped through [resource_map] or to [pods]), and an action that
    is not a banned one. *)
Theorem lg_validate_intent_accepts (d d' : jdict) :
  LangGraph.validate_intent d = Ok d' ->
  (exists s, jget "resource_type" d' = Some (JStr s) /\
             mem s LangGraph.supported_resources = true) /\
  (exists a, jget "action" d' = Some a /\ jin a LangGraph.banned_actions = false) /\
  (forall k, In k LangGraph.intent_fields -> jget k d' <> None).
Proof. exact (lg_validate_ok_spec d d'). Qed.

Lemma lg_validate_intent_accepts_witness :
  LangGraph.validate_intent [("resource_type", JStr "svc"); ("action", JStr "scale")] =
    Ok [("resource_type", JStr "services"); ("action", JStr "scale");
        ("resource_name", JNull); ("namespace", JNull); ("additional_flags", JList [])] /\
  (exists s, jget "resource_type"
      [("resource_type", JStr "services"); ("action", JStr "scale");
       ("resource_name", JNull); ("namespace", JNull); ("additional_flags", JList [])]
      = Some (JStr s) /\ mem s LangGraph.supported_resources = true) /\
  (exists a, jget "action"
      [("resource_type", JStr "services"); ("action", JStr "scale");
       ("resource_name", JNull); ("namespace", JNull); ("additional_flags", JList [])]
      = Some a /\ jin a LangGraph.banned_actions = false) /\
  (forall k, In k LangGraph.intent_fields -> jget k
      [("resource_type", JStr "services"); ("action", JStr "scale");
       ("resource_name", JNull); ("namespace", JNull); ("additional_flags", JList [])] <> None).
Proof.
  assert (H : LangGraph.validate_intent [("resource_type", JStr "svc"); ("action", JStr "scale")] =
    Ok [("resource_type", JStr "services"); ("action", JStr "scale");
        ("resource_name", JNull); ("namespace", JNull); ("additional_flags", JList [])])
    by (vm_compute; reflexivity).
  split; [exact H|]. exact (lg_validate_intent_accepts _ _ H).
Defined.

(** X2: the same holds for [K8sAssistant._validate_intent], whose
    [resource_map] also maps [persistentvolume] and [persistentvolumeclaim]. *)
Theorem k8s_validate_intent_accepts (d d' : jdict) :
  K8sAssistant.validate_intent d = Ok d' ->
  (exists s, jget "resource_type" d' = Some (JStr s) /\
             mem s K8sAssistant.supported_resources = true) /\
  (exists a, jget "action" d' = Some a /\ jin a K8sAssistant.banned_actions = false) /\
  (forall k, In k LangGraph.intent_fields -> jget k d' <> None).
Proof. exact (k8s_validate_ok_spec d d'). Qed.

Lemma k8s_validate_intent_accepts_witness :
  K8sAssistant.validate_intent [("resource_type", JStr "persistentvolume")] =
    Ok [("resource_type", JStr "persistentvolumes"); ("action", JStr "list");
        ("resource_name", JNull); ("namespace", JNull); ("additional_flags", JList [])] /\
  (exists s, jget "resource_type"
      [("resource_type", JStr "persistentvolumes"); ("action", JStr "list");
       ("resource_name", JNull); ("namespace", JNull); ("additional_flags", JList [])]
      = Some (JStr s) /\ mem s K8sAssistant.supported_resources = true) /\
  (exists a, jget "action"
      [("resource_type", JStr "persistentvolumes"); ("action", JStr "list");
       ("resource_name", JNull); ("namespace", JNull); ("additional_flags", JList [])]
      = Some a /\ jin a K8sAssistant.banned_actions = false) /\
  (forall k, In k LangGraph.intent_fields -> jget k
      [("resource_type", JStr "persistentvolumes"); ("action", JStr "list");
       ("resource_name", JNull); ("namespace", JNull); ("additional_flags", JList [])] <> None).
Proof.
  assert (H : K8sAssistant.validate_intent [("resource_type", JStr "persistentvolume")] =
    Ok [("resource_type", JStr "persistentvolumes"); ("action", JStr "list");
        ("resource_name", JNull); ("namespace", JNull); ("additional_flags", JList [])])
    by (vm_compute; reflexivity).
  split; [exact H|]. exact (k8s_validate_intent_accepts _ _ H).
Defined.

(** X3: whatever the LLM answers (or raises), the intent left by the LangGraph
    parse node has a resource type from [supported_resources] and an action
    that is not banned: a rejected LLM intent and an intent the dataclass
    refuses are both replaced by the keyword fallback, whose type and action
    are always supported. *)
Theorem lg_parsed_intent_supported (env : LangGraph.Env) (st : LangGraph.K8sState) :
  exists i, LangGraph.intent (LangGraph.parse_intent_node env st) = Some i /\
    jin (LangGraph.resource_type i) LangGraph.supported_resources = true /\
    jin (LangGraph.action i) LangGraph.banned_actions = false.
Proof. exact (lg_parse_intent_node_spec env st). Qed.

(** X4: one run of the LangGraph pipeline makes at most two subprocess calls,
    in this order: at most one name listing
    [kubectl get <type> -o name ...] with a 10-second timeout, then at most
    one [kubectl] command with a 30-second timeout. *)
Theorem workflow_runs_only_kubectl (env : LangGraph.Env) (st : LangGraph.K8sState) :
  exists listing command,
    snd (LangGraph.workflow env st) = (listing ++ command)%list /\
    (length listing <= 1)%nat /\ (length command <= 1)%nat /\
    (forall c t, In (c, t) listing ->
       t = 10%Z /\ exists rt rest, c = "kubectl" :: "get" :: rt :: "-o" :: "name" :: rest) /\
    (forall c t, In (c, t) command -> t = 30%Z /\ exists rest, c = "kubectl" :: rest).
Proof.
  unfold LangGraph.workflow.
  destruct (LangGraph.router (LangGraph.security_check_node st));
    [|exists [], []; simpl; repeat split; try lia; intros c t []].
  destruct (LangGraph.router (LangGraph.parse_intent_node env (LangGraph.security_check_node st)));
    [|exists [], []; simpl; repeat split; try lia; intros c t []].
  pose proof (resolve_resources_node_shape env
                (LangGraph.parse_intent_node env (LangGraph.security_check_node st))) as [L3 H3].
  destruct (LangGraph.resolve_resources_node env _) as [s3 c3].
  pose proof (execute_kubectl_node_shape env s3) as [L4 H4].
  destruct (LangGraph.execute_kubectl_node env s3) as [s4 c4]. simpl in *.
  exists c3, c4. auto.
Qed.

Lemma workflow_runs_only_kubectl_witness :
  snd (LangGraph.workflow lg_env_ok (LangGraph.initial_state "list all pods"))
    = [(["kubectl"; "get"; "pods"], 30%Z)] /\
  exists listing command,
    snd (LangGraph.workflow lg_env_ok (LangGraph.initial_state "list all pods"))
      = (listing ++ command)%list /\
    (length listing <= 1)%nat /\ (length command <= 1)%nat /\
    (forall c t, In (c, t) listing ->
       t = 10%Z /\ exists rt rest, c = "kubectl" :: "get" :: rt :: "-o" :: "name" :: rest) /\
    (forall c t, In (c, t) command -> t = 30%Z /\ exists rest, c = "kubectl" :: rest).
Proof.
  split; [vm_compute; reflexivity|].
  exact (workflow_runs_only_kubectl lg_env_ok (LangGraph.initial_state "list all pods")).
Defined.

(** X5: a response of the LangGraph [process_query] with [success=true]
    always comes from a [kubectl] command of the run, with the 30-second
    timeout, that exited with code 0; its [raw_response] is that command's
    stripped standard output. *)
Theorem success_requires_clean_kubectl_run (env : LangGraph.Env) (q : string) :
  r_success (LangGraph.process_query env q) = true ->
  exists c rest so se, c = "kubectl" :: rest /\
    In (c, 30%Z) (snd (LangGraph.workflow env (LangGraph.initial_state q))) /\
    LangGraph.subprocess_run env c 30 = LangGraph.Completed 0 so se /\
    r_raw_response (LangGraph.process_query env q) = Some (strip so).
Proof.
  unfold LangGraph.process_query, LangGraph.process_query_with, LangGraph.workflow.
  destruct (LangGraph.router (LangGraph.security_check_node (LangGraph.initial_state q))).
  2:{ simpl. unfold LangGraph.format_response. rewrite error_handler_node_truthy. discriminate. }
  destruct (LangGraph.router (LangGraph.parse_intent_node env
              (LangGraph.security_check_node (LangGraph.initial_state q)))).
  2:{ simpl. unfold LangGraph.format_response. rewrite error_handler_node_truthy. discriminate. }
  destruct (LangGraph.resolve_resources_node env _) as [s3 c3].
  pose proof (execute_kubectl_node_clean env s3) as Hc.
  pose proof (execute_kubectl_node_shape env s3) as [_ Hsh].
  destruct (LangGraph.execute_kubectl_node env s3) as [s4 c4]. simpl in *.
  destruct (enhance_response_node_keeps env s4) as [He Ho].
  unfold LangGraph.format_response. rewrite He, Ho.
  destruct (LangGraph.err_truthy (LangGraph.error s4)); [discriminate|].
  intros _. destruct (Hc eq_refl) as (c & so & se & -> & Hr & Hout).
  destruct (Hsh c 30%Z (or_introl eq_refl)) as [_ [rest Hk]].
  exists c, rest, so, se. split; [exact Hk|].
  split; [apply in_or_app; right; left; reflexivity|].
  split; [exact Hr | simpl; rewrite Hout; reflexivity].
Qed.

Lemma success_requires_clean_kubectl_run_witness :
  r_success (LangGraph.process_query lg_env_ok "list all pods") = true /\
  exists c rest so se, c = "kubectl" :: rest /\
    In (c, 30%Z) (snd (LangGraph.workflow lg_env_ok (LangGraph.initial_state "list all pods"))) /\
    LangGraph.subprocess_run lg_env_ok c 30 = LangGraph.Completed 0 so se /\
    r_raw_response (LangGraph.process_query lg_env_ok "list all pods") = Some (strip so).
Proof.
  assert (H : r_success (LangGraph.process_query lg_env_ok "list all pods") = true)
    by (vm_compute; reflexivity).
  split; [exact H|]. exact (success_requires_clean_kubectl_run lg_env_ok "list all pods" H).
Defined.

(** X6: [K8sLangGraphAssistant._resolve_resource_name] returns either the
    name it was given or a name printed by a [kubectl get <type> -o name]
    call of the run that exited with code 0, taken after its last ['/'] and
    containing the given name up to case. *)
Theorem lg_resolved_name_origin (env : LangGraph.Env) (i : LangGraph.K8sIntent)
  (n : jval) (calls : list LangGraph.call) :
  LangGraph.resolve_resource_name env i = (Ok n, calls) ->
  n = LangGraph.resource_name i \/
  exists s r c so se, LangGraph.resource_name i = JStr s /\ n = JStr r /\
    calls = [(c, 10%Z)] /\ LangGraph.subprocess_run env c 10 = LangGraph.Completed 0 so se /\
    In r (LangGraph.resource_names_of so) /\ contains (lower s) (lower r) = true.
Proof.
  unfold LangGraph.resolve_resource_name.
  destruct (negb (truthy (LangGraph.resource_name i))).
  { intros H. inversion H. auto. }
  destruct (LangGraph.py_len (LangGraph.resource_name i)) as [m|k m]; [|intros H; discriminate H].
  destruct (20 <? m)%nat. { intros H. inversion H. auto. }
  destruct (as_strings _) as [c|]; [|intros H; inversion H; auto].
  destruct (LangGraph.subprocess_run env c 10) as [rc so se| |k msg] eqn:R;
    try (intros H; inversion H; auto; fail).
  destruct (Z.eqb_spec rc 0) as [->|_]; [|intros H; inversion H; auto].
  destruct (LangGraph.resource_name i) as [|b|s|l] eqn:Rn; try (intros H; inversion H; auto; fail).
  destruct (find _ _) as [r|] eqn:F; [|intros H; inversion H; auto].
  intros H. inversion H; subst. right.
  apply find_some_spec in F as [Fin Fc].
  exists s, r, c, so, se. auto 6.
Qed.

Lemma lg_resolved_name_origin_witness :
  LangGraph.resolve_resource_name lg_env_two_names (lg_intent "pods" "get" (JStr "backend")) =
    (Ok (JStr "mybackend"), [(["kubectl"; "get"; "pods"; "-o"; "name"], 10%Z)]) /\
  (JStr "mybackend" = LangGraph.resource_name (lg_intent "pods" "get" (JStr "backend")) \/
   exists s r c so se, LangGraph.resource_name (lg_intent "pods" "get" (JStr "backend")) = JStr s /\
     JStr "mybackend" = JStr r /\
     [(["kubectl"; "get"; "pods"; "-o"; "name"], 10%Z)] = [(c, 10%Z)] /\
     LangGraph.subprocess_run lg_env_two_names c 10 = LangGraph.Completed 0 so se /\
     In r (LangGraph.resource_names_of so) /\ contains (lower s) (lower r) = true).
Proof.
  assert (H : LangGraph.resolve_resource_name lg_env_two_names
                (lg_intent "pods" "get" (JStr "backend")) =
    (Ok (JStr "mybackend"), [(["kubectl"; "get"; "pods"; "-o"; "name"], 10%Z)]))
    by (vm_compute; reflexivity).
  split; [exact H|]. exact (lg_resolved_name_origin _ _ _ _ H).
Defined.

(** X7: [K8sAssistant._resolve_resource_names], when it returns, makes at
    most one listing call, changes no key of the intent other than
    [resource_name], [resolved_from], [other_matches] and
    [_resolution_note], and leaves [resource_name] either as it was or set to
    one of the names the listing call returned. *)
Theorem k8s_resolution_frame (env : K8sAssistant.Env) (intent d : jdict)
  (calls : list K8sAssistant.api_call) :
  K8sAssistant.resolve_resource_names env intent = (Ok d, calls) ->
  (length calls <= 1)%nat /\
  (forall k, ~ In k ["resource_name"; "resolved_from"; "other_matches"; "_resolution_note"] ->
     jget k d = jget k intent) /\
  (jget "resource_name" d = jget "resource_name" intent \/
   exists c names n, calls = [c] /\ K8sAssistant.list_names env c = Ok names /\
     In n names /\ jget "resource_name" d = Some (JStr n)).
Proof.
  unfold K8sAssistant.resolve_resource_names.
  destruct (negb (truthy (jget_or "resource_name" JNull intent))).
  { intros H. inversion H; subst. simpl. auto. }
  destruct (jget_or "resource_name" JNull intent) as [|b|s|l];
    try (intros H; discriminate H).
  destruct (jget "resource_type" intent) as [rt|]; [|intros H; discriminate H].
  destruct (K8sAssistant.clearly_full (lower s)).
  { intros H. inversion H; subst. simpl. auto. }
  destruct (K8sAssistant.listing_call _ _) as [c|].
  2:{ intros H. inversion H; subst. simpl. auto. }
  intros H. inversion H; subst; clear H.
  split; [simpl; lia|].
  destruct (K8sAssistant.list_names env c) as [names|k m] eqn:LN.
  - destruct names as [|n0 ns]; [auto|].
    destruct (select_match_in (n0 :: ns) (lower s)) as [HE HB].
    destruct (K8sAssistant.select_match (n0 :: ns) (lower s)) as [n|b o|] eqn:SM.
    + split; [intros k Hk; rewrite jget_jset_other by (intro; subst; apply Hk; simpl; tauto);
              reflexivity|].
      right. exists c, (n0 :: ns), n. split; [reflexivity|]. split; [exact LN|].
      split; [apply HE; reflexivity|]. apply jget_jset_same.
    + assert (Hr : jget "resource_name"
                 (jset "resolved_from" (JStr (lower s)) (jset "resource_name" (JStr b) intent))
                 = Some (JStr b))
        by (rewrite jget_jset_other by discriminate; apply jget_jset_same).
      assert (Hf : forall k, ~ In k ["resource_name"; "resolved_from"; "other_matches";
                                     "_resolution_note"] ->
                 jget k (jset "resolved_from" (JStr (lower s))
                           (jset "resource_name" (JStr b) intent)) = jget k intent)
        by (intros k Hk; do 2 rewrite jget_jset_other by (intro; subst; apply Hk; simpl; tauto);
            reflexivity).
      destruct o as [o|].
      * split.
        -- intros k Hk. rewrite jget_jset_other by (intro; subst; apply Hk; simpl; tauto).
           apply Hf. exact Hk.
        -- right. exists c, (n0 :: ns), b. split; [reflexivity|]. split; [exact LN|].
           split; [apply (HB b (Some o)); reflexivity|].
           rewrite jget_jset_other by discriminate. exact Hr.
      * split; [exact Hf|].
        right. exists c, (n0 :: ns), b. split; [reflexivity|]. split; [exact LN|].
        split; [apply (HB b None); reflexivity|]. exact Hr.
    + split; [intros k Hk; rewrite jget_jset_other by (intro; subst; apply Hk; simpl; tauto);
              reflexivity|].
      left. rewrite jget_jset_other by discriminate. reflexivity.
  - destruct k;
      (split; [intros k' Hk; rewrite jget_jset_other by (intro; subst; apply Hk; simpl; tauto);
               reflexivity|];
       left; rewrite jget_jset_other by discriminate; reflexivity).
Qed.

Lemma k8s_resolution_frame_witness :
  exists d calls,
    K8sAssistant.resolve_resource_names k8s_env_ok
      [("resource_type", JStr "pods"); ("action", JStr "get"); ("resource_name", JStr "backend")]
      = (Ok d, calls) /\
    (length calls <= 1)%nat /\
    (forall k, ~ In k ["resource_name"; "resolved_from"; "other_matches"; "_resolution_note"] ->
       jget k d = jget k [("resource_type", JStr "pods"); ("action", JStr "get");
                          ("resource_name", JStr "backend")]) /\
    (jget "resource_name" d = jget "resource_name"
       [("resource_type", JStr "pods"); ("action", JStr "get"); ("resource_name", JStr "backend")] \/
     exists c names n, calls = [c] /\ K8sAssistant.list_names k8s_env_ok c = Ok names /\
       In n names /\ jget "resource_name" d = Some (JStr n)).
Proof.
  do 2 eexists.
  assert (H : K8sAssistant.resolve_resource_names k8s_env_ok
      [("resource_type", JStr "pods"); ("action", JStr "get"); ("resource_name", JStr "backend")]
      = (Ok [("resource_type", JStr "pods"); ("action", JStr "get");
             ("resource_name", JStr "backend-7f9c"); ("resolved_from", JStr "backend")],
         [K8sAssistant.ListNames "pods" (Some (JStr "default"))]))
    by (vm_compute; reflexivity).
  split; [exact H|]. exact (k8s_resolution_frame _ _ _ _ H).
Defined.

(** X8: in [K8sAssistant._execute_kubectl], a [list] or [get] intent on a
    resource type other than [pods], [services], [deployments], [nodes] and
    [namespaces] (such as [configmaps] or [ingress], which [_validate_intent]
    accepts) makes no API call and returns
    ["Error: Resource type '<type>' not yet supported"]. *)
Theorem k8s_list_unsupported_type (env : K8sAssistant.Env) (intent : jdict) (a rt : string) :
  jget "action" intent = Some (JStr a) -> In a ["list"; "get"] ->
  jget "resource_type" intent = Some (JStr rt) ->
  ~ In rt ["pods"; "services"; "deployments"; "nodes"; "namespaces"] ->
  K8sAssistant.execute_kubectl env intent =
    ("Error: Resource type '" ++ rt ++ "' not yet supported", []).
Proof.
  intros Ha Hin Hr Hn. unfold K8sAssistant.execute_kubectl. rewrite Ha, Hr. cbv zeta.
  assert (L : jeq_str (JStr a) "logs" = false) by (destruct Hin as [<-|[<-|[]]]; reflexivity).
  assert (G : jin (JStr a) ["list"; "get"] = true) by (apply in_mem; exact Hin).
  rewrite L, G.
  destruct (K8sAssistant.find_kind (JStr rt) K8sAssistant.get_kinds) as [p|] eqn:F;
    [|reflexivity].
  exfalso. apply find_some_spec in F as [Fin Fe].
  destruct Fin as [<-|[<-|[<-|[<-|[<-|[]]]]]]; cbn [fst] in Fe; apply String.eqb_eq in Fe;
    subst; apply Hn; simpl; tauto.
Qed.

Lemma k8s_list_unsupported_type_witness :
  K8sAssistant.execute_kubectl k8s_env_ok
    [("resource_type", JStr "configmaps"); ("action", JStr "list")] =
    ("Error: Resource type 'configmaps' not yet supported", []).
Proof.
  apply (k8s_list_unsupported_type k8s_env_ok
           [("resource_type", JStr "configmaps"); ("action", JStr "list")] "list" "configmaps").
  - reflexivity.
  - simpl. tauto.
  - reflexivity.
  - intros H. apply in_mem in H. vm_compute in H. discriminate H.
Defined.

(** X9: in [K8sAssistant._execute_kubectl], a [describe] intent without a
    resource name, or on a resource type other than [pods], [services] and
    [deployments] (even with a name), makes no API call and returns
    ["Error: Describe requires a specific resource name"]. *)
Theorem k8s_describe_refused (env : K8sAssistant.Env) (intent : jdict) (rt : jval) :
  jget "action" intent = Some (JStr "describe") ->
  jget "resource_type" intent = Some rt ->
  (forall s, rt = JStr s -> ~ In s ["pods"; "services"; "deployments"]) \/
  truthy (jget_or "resource_name" JNull intent) = false ->
  K8sAssistant.execute_kubectl env intent =
    ("Error: Describe requires a specific resource name", []).
Proof.
  intros Ha Hr Hc. unfold K8sAssistant.execute_kubectl. rewrite Ha, Hr. cbv zeta.
  cbn [jeq_str jin mem existsb String.eqb Ascii.eqb Bool.eqb andb orb].
  destruct (K8sAssistant.find_kind rt K8sAssistant.describe_kinds) as [[k sing]|] eqn:F;
    [|reflexivity].
  destruct Hc as [Hc|Hc]; [|rewrite Hc; reflexivity].
  exfalso. destruct rt as [| |s|]; try discriminate F.
  apply find_some_spec in F as [Fin Fe].
  apply (Hc s eq_refl).
  destruct Fin as [Fin|[Fin|[Fin|[]]]]; injection Fin as <- <-; cbn [fst] in Fe;
    apply String.eqb_eq in Fe; subst; simpl; tauto.
Qed.

Lemma k8s_describe_refused_witness :
  K8sAssistant.execute_kubectl k8s_env_ok
    [("resource_type", JStr "nodes"); ("action", JStr "describe");
     ("resource_name", JStr "worker-1")] =
    ("Error: Describe requires a specific resource name", []).
Proof.
  apply (k8s_describe_refused k8s_env_ok _ (JStr "nodes")).
  - reflexivity.
  - reflexivity.
  - left. intros s Hs H. injection Hs as <-. apply in_mem in H. vm_compute in H.
    discriminate H.
Defined.

(** X10: [K8sAssistant._execute_kubectl] makes at most one API call, and
    only for an intent whose action is [list], [get], [describe] or [logs]. *)
Theorem k8s_execute_at_most_one_call (env : K8sAssistant.Env) (intent : jdict) :
  (length (snd (K8sAssistant.execute_kubectl env intent)) <= 1)%nat /\
  forall c, In c (snd (K8sAssistant.execute_kubectl env intent)) ->
    exists a, jget "action" intent = Some (JStr a) /\ In a ["list"; "get"; "describe"; "logs"].
Proof.
  unfold K8sAssistant.execute_kubectl.
  destruct (jget "action" intent) as [a|]; [|simpl; split; [lia | intros c []]].
  destruct (jget "resource_type" intent) as [rt|]; [|simpl; split; [lia | intros c []]].
  cbv zeta. unfold K8sAssistant.api_step.
  repeat LangGraphFacts.case_match; simpl; (split; [lia|]); intros c Hc;
    try contradiction;
    repeat match goal with
    | H : jeq_str ?x _ = true |- _ =>
        destruct x; simpl in H; try discriminate H; apply String.eqb_eq in H; subst
    | H : jin ?x _ = true |- _ => destruct (jin_str _ _ H) as (? & -> & ?); clear H
    | H : mem _ _ = true |- _ => apply mem_in in H
    end;
    eexists; (split; [reflexivity|]); simpl in *; tauto.
Qed.

Lemma k8s_execute_at_most_one_call_witness :
  In (K8sAssistant.ListObj "pods" (Some (JStr "default")))
     (snd (K8sAssistant.execute_kubectl k8s_env_ok
             [("resource_type", JStr "pods"); ("action", JStr "list")])) /\
  exists a, jget "action" [("resource_type", JStr "pods"); ("action", JStr "list")] = Some (JStr a) /\
    In a ["list"; "get"; "describe"; "logs"].
Proof.
  assert (H : In (K8sAssistant.ListObj "pods" (Some (JStr "default")))
     (snd (K8sAssistant.execute_kubectl k8s_env_ok
             [("resource_type", JStr "pods"); ("action", JStr "list")])))
    by (vm_compute; left; reflexivity).
  split; [exact H|].
  exact (proj2 (k8s_execute_at_most_one_call k8s_env_ok _) _ H).
Defined.

(** X11: in [K8sAssistant], when the LLM's intent names a restricted
    resource type ([secrets], [secret], [roles], [role], [clusterroles] or
    [clusterrole]), the parse node records the access-denied message as the
    state's error and leaves [parsed_intent] untouched. *)
Theorem k8s_restricted_llm_intent_denied (env : K8sAssistant.Env)
  (st : K8sAssistant.K8sState) (d : jdict) (r : string) :
  K8sAssistant.parse_with_llm env (K8sAssistant.query st) = Ok d ->
  jget_or "resource_type" (JStr "pods") d = JStr r ->
  In r K8sAssistant.restricted_resource_types ->
  K8sAssistant.error (K8sAssistant.parse_intent_node env st) =
    JStr (K8sAssistant.access_denied r) /\
  K8sAssistant.parsed_intent (K8sAssistant.parse_intent_node env st) =
    K8sAssistant.parsed_intent st.
Proof.
  intros Hl Hr Hin.
  apply (k8s_parse_intent_node_refused env st d _ Hl (k8s_validate_restricted d r Hr Hin)).
  - apply orb_true_iff. left. apply contains_app_l. reflexivity.
  - reflexivity.
Qed.

Lemma k8s_restricted_llm_intent_denied_witness :
  K8sAssistant.error (K8sAssistant.parse_intent_node k8s_env_secret_llm
                        (K8sAssistant.initial_state "list the s3cr3t stores")) =
    JStr (K8sAssistant.access_denied "secrets") /\
  K8sAssistant.parsed_intent (K8sAssistant.parse_intent_node k8s_env_secret_llm
                                (K8sAssistant.initial_state "list the s3cr3t stores")) =
    K8sAssistant.parsed_intent (K8sAssistant.initial_state "list the s3cr3t stores").
Proof.
  apply (k8s_restricted_llm_intent_denied _ _
           [("resource_type", JStr "secrets"); ("action", JStr "list")] "secrets").
  - reflexivity.
  - reflexivity.
  - simpl. tauto.
Defined.

(** X12: in [K8sAssistant], when the LLM's intent names an allowed resource
    type but a banned action ([delete], [edit], [patch], [apply] or
    [create]), the parse node records the security-warning message as the
    state's error and leaves [parsed_intent] untouched. *)
Theorem k8s_banned_llm_action_refused (env : K8sAssistant.Env)
  (st : K8sAssistant.K8sState) (d : jdict) (a : string) :
  K8sAssistant.parse_with_llm env (K8sAssistant.query st) = Ok d ->
  jin (jget_or "resource_type" (JStr "pods") d) K8sAssistant.restricted_resource_types = false ->
  jget_or "action" (JStr "list") d = JStr a ->
  In a K8sAssistant.banned_actions ->
  K8sAssistant.error (K8sAssistant.parse_intent_node env st) =
    JStr (K8sAssistant.security_warning a) /\
  K8sAssistant.parsed_intent (K8sAssistant.parse_intent_node env st) =
    K8sAssistant.parsed_intent st.
Proof.
  intros Hl Hr Ha Hin.
  apply (k8s_parse_intent_node_refused env st d _ Hl (k8s_validate_banned d a Hr Ha Hin)).
  - apply orb_true_iff. right. apply contains_app_l. reflexivity.
  - reflexivity.
Qed.

Lemma k8s_banned_llm_action_refused_witness :
  K8sAssistant.error (K8sAssistant.parse_intent_node
      (K8sAssistant.mkEnv (fun _ => Ok [("resource_type", JStr "pods"); ("action", JStr "delete")])
         (fun _ => Ok []) (fun _ => Ok ""))
      (K8sAssistant.initial_state "clean up the old pods")) =
    JStr (K8sAssistant.security_warning "delete") /\
  K8sAssistant.parsed_intent (K8sAssistant.parse_intent_node
      (K8sAssistant.mkEnv (fun _ => Ok [("resource_type", JStr "pods"); ("action", JStr "delete")])
         (fun _ => Ok []) (fun _ => Ok ""))
      (K8sAssistant.initial_state "clean up the old pods")) =
    K8sAssistant.parsed_intent (K8sAssistant.initial_state "clean up the old pods").
Proof.
  apply (k8s_banned_llm_action_refused _ _
           [("resource_type", JStr "pods"); ("action", JStr "delete")] "delete").
  - reflexivity.
  - reflexivity.
  - reflexivity.
  - simpl. tauto.
Defined.

(** X13: every query the LangGraph security gate blocks is also blocked by
    [K8sAssistant._security_check_node]: the latter records
    [blocked: True] and a non-empty error.  Both gates test the same banned
    actions, and the restricted patterns of [K8sAssistant] include the three
    plural names the LangGraph gate tests. *)
Theorem k8s_gate_covers_lg_gate (q : string) :
  LangGraph.router (LangGraph.security_check_node (LangGraph.initial_state q)) = LangGraph.RError ->
  jget "blocked" (K8sAssistant.security_check
                    (K8sAssistant.security_check_node (K8sAssistant.initial_state q)))
    = Some (JBool true) /\
  truthy (K8sAssistant.error (K8sAssistant.security_check_node (K8sAssistant.initial_state q)))
    = true.
Proof.
  unfold LangGraph.router, LangGraph.security_check_node, K8sAssistant.security_check_node.
  cbn [LangGraph.query K8sAssistant.query LangGraph.initial_state K8sAssistant.initial_state].
  change K8sAssistant.banned_actions with LangGraph.banned_actions.
  destruct (find (fun b => contains b (lower q)) LangGraph.banned_actions) as [b|].
  { intros _. split; reflexivity. }
  destruct (find (fun r => contains r (lower q)) LangGraph.restricted_resources) as [r|] eqn:F.
  - intros _. apply find_some_spec in F as [Fin Fc].
    destruct (find (fun p => contains p (lower q))
                (flat_map snd K8sAssistant.restricted_patterns)) as [p|] eqn:G.
    + split; reflexivity.
    + exfalso.
      assert (Hr : In r (flat_map snd K8sAssistant.restricted_patterns))
        by (destruct Fin as [<-|[<-|[<-|[]]]]; simpl; tauto).
      rewrite (find_none_spec _ _ r G Hr) in Fc. discriminate Fc.
  - intros H. discriminate H.
Qed.

Lemma k8s_gate_covers_lg_gate_witness :
  jget "blocked" (K8sAssistant.security_check
                    (K8sAssistant.security_check_node
                       (K8sAssistant.initial_state "list secrets in prod")))
    = Some (JBool true) /\
  truthy (K8sAssistant.error (K8sAssistant.security_check_node
                                (K8sAssistant.initial_state "list secrets in prod"))) = true.
Proof. apply k8s_gate_covers_lg_gate. vm_compute. reflexivity. Defined.

(** X14: the JSON extraction of [K8sLangGraphAssistant._parse_with_llm]
    ([re.search(r'\{.*\}', response, re.DOTALL)]) hands [json.loads] the text
    from the first ['{'] of the reply to the last ['}'] after it; when no
    ['}'] follows any ['{'], it raises [ValueError]. *)
Theorem llm_reply_json_extraction (json_loads : string -> pyres jdict) (response : string) :
  (exists pre body post,
     list_ascii_of_string response = (pre ++ "{"%char :: body ++ "}"%char :: post)%list /\
     ~ In "{"%char pre /\ ~ In "}"%char post /\
     LangGraph.parse_llm_reply json_loads response =
       json_loads (string_of_list_ascii ("{"%char :: body ++ ["}"%char]))) \/
  ((forall pre post, list_ascii_of_string response = (pre ++ "{"%char :: post)%list ->
                     ~ In "}"%char post) /\
   LangGraph.parse_llm_reply json_loads response =
     Exc ValueError "No valid JSON found in LLM response").
Proof.
  unfold LangGraph.parse_llm_reply.
  destruct (LangGraph.brace_search (list_ascii_of_string response)) as [m|] eqn:B.
  - left. destruct (brace_search_some _ _ B) as (pre & body & post & -> & El & Hpre & Hpost).
    exists pre, body, post. split; [|auto].
    rewrite El. f_equal. simpl. f_equal. rewrite <- app_assoc. reflexivity.
  - right. split; [exact (brace_search_none _ B) | reflexivity].
Qed.

(** X15: [K8sAssistant._calculate_age] of a creation timestamp that lies in
    the future by at most 82799 seconds (clock skew) is reported in hours
    counted back from a full day (["23h"] for a timestamp 5 seconds ahead),
    not as a small or negative age. *)
Theorem k8s_age_future_timestamp (now ts : Z) :
  (0 < ts - now <= 82799000000)%Z ->
  K8sAssistant.calculate_age now (Some ts) =
    K8sAssistant.py_int ((86400000000 - (ts - now)) / 1000000 / 3600) ++ "h".
Proof.
  intros H. unfold K8sAssistant.calculate_age.
  assert (Hd : ((now - ts) / 86400000000 = -1)%Z)
    by (symmetry; apply Z.div_unique with (r := (now - ts + 86400000000)%Z); lia).
  assert (Hm : ((now - ts) mod 86400000000 = 86400000000 - (ts - now))%Z)
    by (symmetry; apply Z.mod_unique with (q := (-1)%Z); lia).
  rewrite Hd, Hm.
  assert (Hs : (3601 <= (86400000000 - (ts - now)) / 1000000)%Z)
    by (apply Z.div_le_lower_bound; lia).
  replace (3600 <? (86400000000 - (ts - now)) / 1000000)%Z with true
    by (symmetry; apply Z.ltb_lt; lia).
  reflexivity.
Qed.

Lemma k8s_age_future_timestamp_witness :
  K8sAssistant.calculate_age 0 (Some 5000000%Z) = "23h".
Proof. rewrite (k8s_age_future_timestamp 0 5000000); [vm_compute; reflexivity | lia]. Defined.

(** X16: the enhancement node of [K8sAssistant]: an empty output or one
    starting with ["Error:"] becomes ["Unable to execute the query. "] followed by
    the output, whatever the completion service does; otherwise an intent
    without [action] or [resource_type] makes the prompt construction raise
    [KeyError], which the node turns into ["Enhancement unavailable"]; and a
    failing completion call yields the raw output under a fixed header. *)
Theorem k8s_enhance_response_node_cases (gtc : string -> pyres string)
  (st : K8sAssistant.K8sState) :
  (K8sAssistant.kubectl_result st = "" \/
   startswith "Error:" (K8sAssistant.kubectl_result st) = true ->
   K8sAssistant.enhanced_response (K8sAssistant.enhance_response_node gtc st) =
     "Unable to execute the query. " ++ K8sAssistant.kubectl_result st) /\
  (K8sAssistant.kubectl_result st <> "" ->
   startswith "Error:" (K8sAssistant.kubectl_result st) = false ->
   jget "action" (K8sAssistant.parsed_intent st) = None \/
   jget "resource_type" (K8sAssistant.parsed_intent st) = None ->
   K8sAssistant.enhanced_response (K8sAssistant.enhance_response_node gtc st) =
     "Enhancement unavailable") /\
  (forall a rt k m,
   K8sAssistant.kubectl_result st <> "" ->
   startswith "Error:" (K8sAssistant.kubectl_result st) = false ->
   jget "action" (K8sAssistant.parsed_intent st) = Some a ->
   jget "resource_type" (K8sAssistant.parsed_intent st) = Some rt ->
   gtc (K8sAssistant.enhance_prompt (K8sAssistant.query st) a rt
          (K8sAssistant.kubectl_result st)) = Exc k m ->
   K8sAssistant.enhanced_response (K8sAssistant.enhance_response_node gtc st) =
     "Here's the kubectl output for your query:" ++ String "010"%char
       (String "010"%char (K8sAssistant.kubectl_result st))).
Proof.
  unfold K8sAssistant.enhance_response_node, K8sAssistant.enhance_response.
  split; [|split].
  - intros H. replace (String.eqb (K8sAssistant.kubectl_result st) "" ||
                       startswith "Error:" (K8sAssistant.kubectl_result st)) with true.
    + reflexivity.
    + destruct H as [H|H]; [rewrite H; reflexivity | rewrite H, orb_true_r; reflexivity].
  - intros Hne Hs Hk.
    rewrite (proj2 (String.eqb_neq _ _) Hne), Hs. cbn [orb].
    destruct Hk as [Hk|Hk]; rewrite Hk; [reflexivity|].
    destruct (jget "action" _); reflexivity.
  - intros a rt k m Hne Hs Ha Hr Hg.
    rewrite (proj2 (String.eqb_neq _ _) Hne), Hs. cbn [orb].
    rewrite Ha, Hr, Hg. reflexivity.
Qed.

Lemma k8s_enhance_response_node_cases_witness :
  K8sAssistant.enhanced_response (K8sAssistant.enhance_response_node (fun _ => Ok "x")
      (K8sAssistant.mkState "q" [] [] "Error: boom" "" (JStr ""))) =
    "Unable to execute the query. " ++ "Error: boom" /\
  K8sAssistant.enhanced_response (K8sAssistant.enhance_response_node (fun _ => Ok "x")
      (K8sAssistant.mkState "q" [] [] "NAME" "" (JStr ""))) = "Enhancement unavailable" /\
  K8sAssistant.enhanced_response (K8sAssistant.enhance_response_node
      (fun _ => Exc OtherException "down")
      (K8sAssistant.mkState "q" [("action", JStr "list"); ("resource_type", JStr "pods")] []
         "NAME" "" (JStr ""))) =
    "Here's the kubectl output for your query:" ++ String "010"%char (String "010"%char "NAME").
Proof.
  split; [|split].
  - apply (proj1 (k8s_enhance_response_node_cases _
             (K8sAssistant.mkState "q" [] [] "Error: boom" "" (JStr "")))).
    right. reflexivity.
  - apply (proj1 (proj2 (k8s_enhance_response_node_cases _
             (K8sAssistant.mkState "q" [] [] "NAME" "" (JStr ""))))).
    + discriminate.
    + reflexivity.
    + left. reflexivity.
  - apply (proj2 (proj2 (k8s_enhance_response_node_cases _
             (K8sAssistant.mkState "q" [("action", JStr "list"); ("resource_type", JStr "pods")] []
                "NAME" "" (JStr ""))))
             (JStr "list") (JStr "pods") OtherException "down").
    + discriminate.
    + reflexivity.
    + reflexivity.
    + reflexivity.
    + reflexivity.
Defined.

(** X17: in the LangGraph pipeline, the [additional_flags] of the LLM's reply
    are appended to the command unchecked.  For a query that passes the
    security gate, an LLM reply naming a supported resource type and an
    action that is neither banned nor one of [list], [get], [describe],
    [logs] makes the run execute exactly [kubectl] followed by those flags, so
    a reply with flags [delete pod web] runs [kubectl delete pod web]. *)
Theorem lg_llm_flags_run_verbatim (env : LangGraph.Env) (q rt a : string) (fl : list string) :
  LangGraph.router (LangGraph.security_check_node (LangGraph.initial_state q)) = LangGraph.RContinue ->
  LangGraph.parse_with_llm env q =
    Ok [("resource_type", JStr rt); ("action", JStr a); ("additional_flags", JList fl)] ->
  In rt LangGraph.supported_resources ->
  ~ In a LangGraph.banned_actions ->
  ~ In a LangGraph.supported_actions ->
  snd (LangGraph.workflow env (LangGraph.initial_state q)) = [("kubectl" :: fl, 30%Z)].
Proof.
  intros Hgate Hllm Hrt Hb Hs.
  assert (Ha : forall y, In y LangGraph.supported_actions -> String.eqb a y = false)
    by (intros y Hy; apply String.eqb_neq; intros ->; exact (Hs Hy)).
  set (I := LangGraph.mkIntent (JStr rt) (JStr a) JNull JNull (JList fl)).
  assert (Hk : LangGraph.K8sIntent_of_dict
                 [("resource_type", JStr rt); ("action", JStr a); ("additional_flags", JList fl);
                  ("resource_name", JNull); ("namespace", JNull)] = Ok I) by reflexivity.
  assert (Hc : LangGraph.build_kubectl_command I = Ok (JStr "kubectl" :: map JStr fl)).
  { unfold LangGraph.build_kubectl_command. cbn [I LangGraph.action jeq_str jin].
    rewrite (Ha "logs") by (simpl; tauto).
    unfold mem. cbn [existsb].
    rewrite (Ha "list"), (Ha "get"), (Ha "describe") by (simpl; tauto).
    reflexivity. }
  assert (Hstr : as_strings (JStr "kubectl" :: map JStr fl) = Some ("kubectl" :: fl)).
  { assert (G : forall l, as_strings (map JStr l) = Some l)
      by (induction l as [|x l IH]; [reflexivity | simpl; rewrite IH; reflexivity]).
    simpl. rewrite G. reflexivity. }
  unfold LangGraph.workflow.
  set (s1 := LangGraph.security_check_node (LangGraph.initial_state q)) in *.
  rewrite Hgate.
  assert (Hq : LangGraph.query s1 = q) by apply security_check_node_query.
  assert (Hp : LangGraph.parse_intent_node env s1 = LangGraph.set_intent (Some I) s1).
  { unfold LangGraph.parse_intent_node. rewrite Hq, Hllm. cbn [bind].
    rewrite (lg_flags_validate rt a fl Hrt Hb). cbn [bind]. rewrite Hk. reflexivity. }
  rewrite Hp.
  change (LangGraph.router (LangGraph.set_intent (Some I) s1)) with (LangGraph.router s1).
  rewrite Hgate.
  change (LangGraph.resolve_resources_node env (LangGraph.set_intent (Some I) s1))
    with (LangGraph.set_intent (Some I) s1, @nil LangGraph.call).
  unfold LangGraph.execute_kubectl_node. cbn [LangGraph.intent LangGraph.set_intent].
  rewrite Hc, Hstr.
  destruct (LangGraph.subprocess_run env ("kubectl" :: fl) 30) as [rc so se| |k m];
    [destruct (Z.eqb rc 0)|..]; reflexivity.
Qed.


Lemma lg_llm_flags_run_verbatim_witness :
  snd (LangGraph.workflow
         (LangGraph.mkEnv
            (fun _ => Ok [("resource_type", JStr "pods"); ("action", JStr "scale");
                          ("additional_flags", JList ["delete"; "pod"; "web"])])
            (fun _ => Ok "summary") (fun _ _ => LangGraph.Completed 0 "" ""))
         (LangGraph.initial_state "scale the web pods")) =
    [(["kubectl"; "delete"; "pod"; "web"], 30%Z)].
Proof.
  apply (lg_llm_flags_run_verbatim _ "scale the web pods" "pods" "scale"
           ["delete"; "pod"; "web"]).
  - vm_compute. reflexivity.
  - reflexivity.
  - simpl. tauto.
  - intros H. apply in_mem in H. vm_compute in H. discriminate H.
  - intros H. apply in_mem in H. vm_compute in H. discriminate H.
Defined.

End ExtraFacts.
